(** * News-Agent: the selection pipeline, embedded and verified

  A shallow embedding of the pure core of the repository:
  - [src/feeds/fetcher.py]   : [RawArticle], [filter_today_articles], [deduplicate];
  - [src/agent/news_agent.py]: the heuristic enricher ([_extract_key_points],
    [_calculate_importance], [_categorize_article]) and the pipeline [run];
  - [src/ranking/ranker.py]  : [ArticleRanker] (recency, diversity penalty, final
    score, [get_top_n], [ensure_source_diversity]).

  Modelling conventions.
  - A Python [str] is a Rocq [string]; one element of the string stands for one
    Python character, of a code point below 256.  On these code points
    [str.lower], [str.strip] and the whitespace class of [re] are modelled in full.
  - A Python [float] is a rational number ([Q]), and results are compared with [==]
    ([Qeq]).  Where a definition computes a score ([calculate_final_score],
    [_calculate_importance]), the arithmetic is exact; the program rounds to
    binary64.  Statements that depend on which scores are equal are therefore made
    about the selection loops with the scoring function as a parameter
    ([Ranker.get_top_n_by], [RankAll.rank_by]), of which the rounded scores of the
    program are an instance.
  - A Python [int] is a [Z]; a length is a [nat].
  - [dict] and [defaultdict] are [gmap]s, [set] is a [gset].
  - [datetime] values are instants in microseconds ([Z]) on the naive local time
    line; the clock ([datetime.now()]) and the date parser ([datetime.strptime]) are
    variables of the sections that use them. *)

From Stdlib Require Import ZArith QArith Qminmax Lqa Lia List Sorted Permutation.
From Stdlib Require Import Ascii String.
From stdpp Require Import gmap strings list pretty.

Open Scope string_scope.

(** ** Python built-ins used by the sources *)

Module Py.

(** *** Numbers: [min] and [max] on two floats

    [max(a, b)] keeps [a] unless [b > a]; [min(a, b)] keeps [a] unless [b < a]. *)

Definition Qltb (a b : Q) : bool := negb (Qle_bool b a).

Definition max (a b : Q) : Q := if Qltb a b then b else a.
Definition min (a b : Q) : Q := if Qltb b a then b else a.

(** *** Strings *)

(** The characters that [str.lower] changes, among the code points below 256: the
    letters A-Z, and the accented capitals U+00C0-U+00DE without the
    multiplication sign U+00D7.  Each is mapped to the code point 32 above it. *)
Definition is_upper (c : ascii) : bool :=
  let n := nat_of_ascii c in
  (Nat.leb 65 n && Nat.leb n 90)
  || (Nat.leb 192 n && Nat.leb n 214)
  || (Nat.leb 216 n && Nat.leb n 222).

Definition lower_char (c : ascii) : ascii :=
  if is_upper c then ascii_of_nat (nat_of_ascii c + 32) else c.

(** [s.lower()] *)
Fixpoint lower (s : string) : string :=
  match s with
  | EmptyString => EmptyString
  | String c s' => String (lower_char c) (lower s')
  end.

(** [sub in s] *)
Fixpoint contains (sub s : string) : bool :=
  String.prefix sub s ||
  match s with
  | EmptyString => false
  | String _ s' => contains sub s'
  end.

(** [s.replace(old, new)] for a non-empty [old]: occurrences are found from the
    left and do not overlap.  [skip] counts the characters of a match that are
    still to be passed over. *)
Fixpoint replace_from (old new s : string) (skip : nat) : string :=
  match s with
  | EmptyString => EmptyString
  | String c s' =>
      match skip with
      | S k => replace_from old new s' k
      | O =>
          if String.prefix old s
          then new +:+ replace_from old new s' (String.length old - 1)
          else String c (replace_from old new s' 0)
      end
  end.

Definition replace (old new s : string) : string := replace_from old new s 0.

(** [s.split(sep)] for a one-character separator: every separator cuts, so the
    result has one fragment more than there are separators. *)
Fixpoint split (sep : ascii) (s : string) : list string :=
  match s with
  | EmptyString => [EmptyString]
  | String c s' =>
      if Ascii.eqb c sep then EmptyString :: split sep s'
      else match split sep s' with
           | [] => [String c EmptyString]
           | w :: ws => String c w :: ws
           end
  end.

(** Whitespace of [str.isspace], which is also what [str.strip] removes and what
    [\s] matches in a [str] pattern, among the code points below 256: TAB, LF, VT,
    FF, CR, the separators 0x1c-0x1f, the space, the next-line character U+0085
    and the no-break space U+00A0. *)
Definition is_space (c : ascii) : bool :=
  let n := nat_of_ascii c in
  (Nat.leb 9 n && Nat.leb n 13) || (Nat.leb 28 n && Nat.leb n 32)
  || Nat.eqb n 133 || Nat.eqb n 160.

Fixpoint lstrip (s : string) : string :=
  match s with
  | EmptyString => EmptyString
  | String c s' => if is_space c then lstrip s' else s
  end.

Fixpoint rstrip (s : string) : string :=
  match s with
  | EmptyString => EmptyString
  | String c s' =>
      match rstrip s' with
      | EmptyString => if is_space c then EmptyString else String c EmptyString
      | r => String c r
      end
  end.

(** [s.strip()] *)
Definition strip (s : string) : string := rstrip (lstrip s).

(** Truth value of a string: non-empty. *)
Definition truthy (s : string) : bool :=
  match s with EmptyString => false | _ => true end.

(** Truth value of a list: non-empty. *)
Definition nonempty {A : Type} (l : list A) : bool :=
  match l with [] => false | _ => true end.

End Py.

(** ** Data model *)

(** [RawArticle] of [src/feeds/fetcher.py]. *)
Module RawArticle.
Record t : Type := mk {
  title : string;
  url : string;
  source : string;
  published : Z;
  summary : string;
  author : string;
  tags : list string
}.
End RawArticle.

(** [ArticleSummary] of [src/agent/news_agent.py] and [src/ai/summarizer.py] (the
  two declarations have the same fields). *)
Module ArticleSummary.
Record t : Type := mk {
  title : string;
  url : string;
  source : string;
  published : string;
  summary : string;
  key_points : list string;
  importance_score : Q;
  category : string
}.
End ArticleSummary.

(** [DailySummary] of [src/agent/news_agent.py]. *)
Module DailySummary.
Record t : Type := mk {
  date : string;
  articles : list ArticleSummary.t;
  total_fetched : nat;
  total_parsed : nat;
  sources_used : list string
}.
End DailySummary.

(** ** The heuristic enricher ([NewsAgent], first half) *)

Module Enricher.

(** [NewsAgent._extract_key_points] *)
Definition _extract_key_points (summary : string) : list string :=
  if negb (Py.truthy summary) then []
  else
    let sentences := Py.split "." (Py.replace "..." "." summary) in
    let sentences :=
      map Py.strip
        (List.filter (fun s => Py.truthy (Py.strip s)
                               && Nat.ltb 20 (String.length (Py.strip s)))
                     sentences) in
    take 3 sentences.

Definition important_keywords : list string :=
  ["ai"; "artificial intelligence"; "breakthrough"; "launch";
   "announce"; "release"; "new"; "first"; "major"; "billion";
   "google"; "apple"; "microsoft"; "openai"; "meta"; "amazon"].

(** One turn of the keyword loop of [_calculate_importance]. *)
Definition boost (title_lower : string) (score : Q) (keyword : string) : Q :=
  if Py.contains keyword title_lower then (score + 0.5)%Q else score.

(** [NewsAgent._calculate_importance] *)
Definition _calculate_importance (article : RawArticle.t) : Q :=
  let title_lower := Py.lower (RawArticle.title article) in
  let score := fold_left (boost title_lower) important_keywords 5.0%Q in
  Py.min 10.0%Q score.

(** The [categories] dict, in insertion order. *)
Definition categories : list (string * list string) :=
  [("AI/ML", ["ai"; "artificial intelligence"; "machine learning"; "gpt"; "llm";
              "chatgpt"; "neural"]);
   ("Startups", ["startup"; "funding"; "venture"; "seed"; "series a"; "series b";
                 "valuation"]);
   ("Gadgets", ["phone"; "iphone"; "android"; "laptop"; "tablet"; "wearable";
                "headphone"]);
   ("Gaming", ["game"; "gaming"; "playstation"; "xbox"; "nintendo"; "steam"]);
   ("Space", ["space"; "nasa"; "spacex"; "rocket"; "satellite"; "mars"; "moon"]);
   ("Security", ["security"; "hack"; "breach"; "privacy"; "cyber"; "ransomware"]);
   ("Software", ["app"; "software"; "update"; "feature"; "version"])].

(** The inner loop of [_categorize_article]: [true] when some keyword is found,
    which is when the function returns the current category. *)
Fixpoint keyword_hit (title_lower : string) (keywords : list string) : bool :=
  match keywords with
  | [] => false
  | keyword :: rest =>
      if Py.contains keyword title_lower then true
      else keyword_hit title_lower rest
  end.

(** The outer loop of [_categorize_article]. *)
Fixpoint categorize_loop (title_lower : string)
    (table : list (string * list string)) : string :=
  match table with
  | [] => "Tech"
  | (category, keywords) :: rest =>
      if keyword_hit title_lower keywords then category
      else categorize_loop title_lower rest
  end.

(** [NewsAgent._categorize_article] *)
Definition _categorize_article (article : RawArticle.t) : string :=
  categorize_loop (Py.lower (RawArticle.title article)) categories.

End Enricher.

(** ** The feed fetcher: the two pure transforms of [FeedFetcher] *)

Module Fetcher.

(** One day, in microseconds ([timedelta(days=1)]). *)
Definition day : Z := 86400 * 1000000.

(** [FeedFetcher.filter_today_articles]; [now] is the value of [datetime.now()]. *)
Definition filter_today_articles (now : Z) (articles : list RawArticle.t)
    (days : Z) : list RawArticle.t :=
  let cutoff := (now - days * day)%Z in
  List.filter (fun article => (cutoff <=? RawArticle.published article)%Z) articles.

(** The loop of [deduplicate], with its two accumulators. *)
Fixpoint deduplicate_loop (articles : list RawArticle.t) (seen_urls : gset string)
    (unique_articles : list RawArticle.t) : list RawArticle.t :=
  match articles with
  | [] => unique_articles
  | article :: rest =>
      if decide (RawArticle.url article ∈ seen_urls)
      then deduplicate_loop rest seen_urls unique_articles
      else deduplicate_loop rest ({[RawArticle.url article]} ∪ seen_urls)
                            (unique_articles ++ [article])
  end.

(** [FeedFetcher.deduplicate] *)
Definition deduplicate (articles : list RawArticle.t) : list RawArticle.t :=
  deduplicate_loop articles ∅ [].

End Fetcher.

(** ** Sorting: [sorted(xs, key=..., reverse=True)] and [xs.sort(key=..., reverse=True)]

    Python's sort is stable, also with [reverse=True]: the result is the permutation
    of the input that is descending in the key and keeps elements of equal key in
    their input order.  An insertion sort that places an element before the first
    one whose key is not larger computes it. *)

Module PySort.

Section Sorted.
Context {A : Type}.
Variable key : A → Q.

Fixpoint insert_desc (x : A) (l : list A) : list A :=
  match l with
  | [] => [x]
  | y :: l' => if Py.Qltb (key x) (key y) then y :: insert_desc x l' else x :: l
  end.

Fixpoint sorted_reverse (l : list A) : list A :=
  match l with
  | [] => []
  | x :: l' => insert_desc x (sorted_reverse l')
  end.

End Sorted.

End PySort.

(** ** The article ranker ([ArticleRanker]) *)

Module Ranker.

(** The three weights set by [__init__]. *)
Record ArticleRanker : Type := {
  recency_weight : Q;
  importance_weight : Q;
  diversity_weight : Q
}.

(** [ArticleRanker()] with the default arguments. *)
Definition default_ranker : ArticleRanker :=
  {| recency_weight := 0.2; importance_weight := 0.6; diversity_weight := 0.2 |}.

(** What [calculate_recency_score] may receive: a string, or a [datetime]. *)
Inductive published_value : Type :=
| PubStr (s : string)
| PubDatetime (d : Z).

(** A value returned by a loop that can raise: the result, Python's [IndexError],
    or the model's loop bound reached. *)
Inductive outcome (A : Type) : Type :=
| Returns (a : A)
| IndexError
| OutOfFuel.
Arguments Returns {A} a.
Arguments IndexError {A}.
Arguments OutOfFuel {A}.

(** [l.pop(i)] for [i >= 0]. *)
Definition pop {A : Type} (i : nat) (l : list A) : option (A * list A) :=
  match l !! i with
  | Some x => Some (x, delete i l)
  | None => None
  end.

(** [enumerate(l)] *)
Definition enumerate {A : Type} (l : list A) : list (nat * A) :=
  imap (fun i x => (i, x)) l.

Section Scoring.

(** What [get_top_n] obtains from [self.calculate_final_score(article, selected)].
    The loop only compares these values, so it is written for any scoring
    function: the binary64 scores of the program are one (every finite float is a
    rational number), the exact scores of [calculate_final_score] below another. *)
Variable final_score : ArticleSummary.t → list ArticleSummary.t → Q.

(** One turn of the inner [for i, article in enumerate(remaining)] of [get_top_n];
    the state is [(best_score, best_idx)]. *)
Definition scan_step (selected : list ArticleSummary.t)
    (best : Q * nat) (entry : nat * ArticleSummary.t) : Q * nat :=
  let score := final_score (snd entry) selected in
  if Py.Qltb (fst best) score then (score, fst entry) else best.

(** The inner loop of [get_top_n]: the index it leaves in [best_idx]. *)
Definition best_index (selected remaining : list ArticleSummary.t) : nat :=
  snd (fold_left (scan_step selected) (enumerate remaining) ((-1)%Q, 0%nat)).

(** The [while len(selected) < n and remaining] loop of [get_top_n]. *)
Fixpoint select_loop (fuel : nat) (n : Z)
    (selected remaining : list ArticleSummary.t) : outcome (list ArticleSummary.t) :=
  if (Z.of_nat (length selected) <? n)%Z && Py.nonempty remaining
  then
    match fuel with
    | O => OutOfFuel
    | S fuel' =>
        match pop (best_index selected remaining) remaining with
        | Some (best, remaining') =>
            select_loop fuel' n (selected ++ [best]) remaining'
        | None => IndexError
        end
    end
  else Returns selected.

(** The body of [ArticleRanker.get_top_n].  Every turn of the loop removes one
    element of [remaining], so [length summaries] turns are enough. *)
Definition get_top_n_by (summaries : list ArticleSummary.t) (n : Z)
    : outcome (list ArticleSummary.t) :=
  if (Z.of_nat (length summaries) <=? n)%Z then Returns summaries
  else select_loop (length summaries) n [] summaries.

End Scoring.

Section Clock.

(** [datetime.now()], and [datetime.strptime(text, fmt)] ([None] for [ValueError]). *)
Variable now : Z.
Variable strptime : string → string → option Z.

Definition formats : list string :=
  ["%Y-%m-%d %H:%M:%S"; "%Y-%m-%dT%H:%M:%S"; "%Y-%m-%d"].

(** The [for fmt in ...: try ... break / except ValueError: continue] loop; [None] is
    its [else] branch. *)
Fixpoint try_formats (text : string) (fmts : list string) : option Z :=
  match fmts with
  | [] => None
  | fmt :: rest =>
      match strptime text fmt with
      | Some pub_date => Some pub_date
      | None => try_formats text rest
      end
  end.

(** [(datetime.now() - pub_date).total_seconds() / 3600] *)
Definition hours_ago (pub_date : Z) : Q :=
  (inject_Z (now - pub_date) / 1000000 / 3600)%Q.

(** The bucket ladder of [calculate_recency_score]. *)
Definition recency_of_hours (hours : Q) : Q :=
  if Qle_bool hours 1 then 10.0%Q
  else if Qle_bool hours 6 then 9.0%Q
  else if Qle_bool hours 12 then 7.0%Q
  else if Qle_bool hours 24 then 5.0%Q
  else Py.max 1.0%Q (5.0 - (hours - 24) / 24)%Q.

(** [ArticleRanker.calculate_recency_score].  The subtraction of two naive
    datetimes does not raise, so the outer [except] has nothing to catch. *)
Definition calculate_recency_score (published : published_value) : Q :=
  let parsed :=
    match published with
    | PubDatetime d => Some d
    | PubStr s => try_formats (String.substring 0 19 s) formats
    end in
  match parsed with
  | None => 5.0%Q
  | Some pub_date => recency_of_hours (hours_ago pub_date)
  end.

(** One turn of the loop of [calculate_diversity_penalty]. *)
Definition penalty_step (article : ArticleSummary.t) (penalty : Q)
    (sel : ArticleSummary.t) : Q :=
  let penalty :=
    if String.eqb (ArticleSummary.source article) (ArticleSummary.source sel)
    then (penalty + 2.0)%Q else penalty in
  if String.eqb (ArticleSummary.category article) (ArticleSummary.category sel)
  then (penalty + 1.0)%Q else penalty.

(** [ArticleRanker.calculate_diversity_penalty] *)
Definition calculate_diversity_penalty (article : ArticleSummary.t)
    (selected : list ArticleSummary.t) : Q :=
  fold_left (penalty_step article) selected 0.0%Q.

(** [ArticleRanker.calculate_final_score]; the default [selected=None] and an empty
    list both stand for [[]]. *)
Definition calculate_final_score (self : ArticleRanker) (article : ArticleSummary.t)
    (selected : list ArticleSummary.t) : Q :=
  let importance := ArticleSummary.importance_score article in
  let recency := calculate_recency_score (PubStr (ArticleSummary.published article)) in
  let diversity_penalty := calculate_diversity_penalty article selected in
  let final_score :=
    (importance_weight self * importance + recency_weight self * recency
     - diversity_weight self * diversity_penalty)%Q in
  Py.max 0.0%Q final_score.

(** [ArticleRanker.get_top_n] with the scores of [calculate_final_score]. *)
Definition get_top_n (self : ArticleRanker) (summaries : list ArticleSummary.t) (n : Z)
    : outcome (list ArticleSummary.t) :=
  get_top_n_by (calculate_final_score self) summaries n.

End Clock.

(** The loop of [ensure_source_diversity].  [source_counts] is a [defaultdict(int)]:
    reading a missing key stores 0 under it. *)
Fixpoint diversity_loop (n max_per_source : Z) (sorted_summaries : list ArticleSummary.t)
    (source_counts : gmap string Z) (selected : list ArticleSummary.t)
    : list ArticleSummary.t :=
  match sorted_summaries with
  | [] => selected
  | article :: rest =>
      if (n <=? Z.of_nat (length selected))%Z then selected
      else
        let src := ArticleSummary.source article in
        let count := default 0%Z (source_counts !! src) in
        let source_counts := <[src := count]> source_counts in
        if (count <? max_per_source)%Z
        then diversity_loop n max_per_source rest
               (<[src := (count + 1)%Z]> source_counts) (selected ++ [article])
        else diversity_loop n max_per_source rest source_counts selected
  end.

(** [ArticleRanker.ensure_source_diversity] *)
Definition ensure_source_diversity (summaries : list ArticleSummary.t) (n : Z)
    (max_per_source : Z) : list ArticleSummary.t :=
  let sorted_summaries :=
    PySort.sorted_reverse ArticleSummary.importance_score summaries in
  diversity_loop n max_per_source sorted_summaries ∅ [].

End Ranker.

(** ** The orchestrator ([NewsAgent.run]) *)

Module Agent.

(** The selection loop of [run]: at most 2 articles of a source.  [source_counts] is a
    plain [dict] read with [get(source, 0)]. *)
Fixpoint top_articles_loop (top_n : Z) (summaries : list ArticleSummary.t)
    (source_counts : gmap string Z) (top_articles : list ArticleSummary.t)
    : list ArticleSummary.t :=
  match summaries with
  | [] => top_articles
  | article :: rest =>
      if (top_n <=? Z.of_nat (length top_articles))%Z then top_articles
      else
        let src := ArticleSummary.source article in
        if (default 0%Z (source_counts !! src) <? 2)%Z
        then top_articles_loop top_n rest
               (<[src := (default 0%Z (source_counts !! src) + 1)%Z]> source_counts)
               (top_articles ++ [article])
        else top_articles_loop top_n rest source_counts top_articles
  end.

Section Run.

(** [datetime.now()] (one instant for the whole run), today's date as [strftime]
    prints it, and [str] on a [datetime]. *)
Variable now : Z.
Variable today : string.
Variable datetime_str : Z → string.

(** The [ArticleSummary] that [run] builds from a [RawArticle]. *)
Definition summarize (article : RawArticle.t) : ArticleSummary.t :=
  {| ArticleSummary.title := RawArticle.title article;
     ArticleSummary.url := RawArticle.url article;
     ArticleSummary.source := RawArticle.source article;
     ArticleSummary.published := datetime_str (RawArticle.published article);
     ArticleSummary.summary :=
       if Py.truthy (RawArticle.summary article) then RawArticle.summary article
       else "Click to read the full article.";
     ArticleSummary.key_points :=
       Enricher._extract_key_points (RawArticle.summary article);
     ArticleSummary.importance_score := Enricher._calculate_importance article;
     ArticleSummary.category := Enricher._categorize_article article |}.

(** [NewsAgent.run], from the list that [fetch_all_feeds] returned.  The second
    component is the sequence of messages passed to [progress_callback]. *)
Definition run (top_n : Z) (raw_articles : list RawArticle.t)
    : DailySummary.t * list string :=
  let log :=
    ["Fetching RSS feeds from tech sources...";
     "Found " +:+ pretty (length raw_articles) +:+ " articles from all sources"] in
  let today_articles := Fetcher.filter_today_articles now raw_articles 7 in
  let today_articles := Fetcher.deduplicate today_articles in
  let log :=
    (log ++ ["Filtered to " +:+ pretty (length today_articles) +:+ " recent articles"])%list in
  if negb (Py.nonempty today_articles) then
    ({| DailySummary.date := today;
        DailySummary.articles := [];
        DailySummary.total_fetched := length raw_articles;
        DailySummary.total_parsed := 0;
        DailySummary.sources_used := [] |}, log)
  else
    let log := (log ++ ["Processing articles..."])%list in
    let summaries := map summarize (take 100 today_articles) in
    let log :=
      (log ++ ["Processed " +:+ pretty (length summaries) +:+ " articles";
               "Selecting top " +:+ pretty top_n +:+ " articles..."])%list in
    let summaries := PySort.sorted_reverse ArticleSummary.importance_score summaries in
    let top_articles := top_articles_loop top_n summaries ∅ [] in
    let sources_used :=
      elements (list_to_set (map ArticleSummary.source top_articles) : gset string) in
    ({| DailySummary.date := today;
        DailySummary.articles := top_articles;
        DailySummary.total_fetched := length raw_articles;
        DailySummary.total_parsed := length summaries;
        DailySummary.sources_used := sources_used |}, log).

End Run.

End Agent.

(** ** The ranker, continued: [ArticleRanker.rank] *)

Module RankAll.

Section Scoring.

(** What [rank] obtains from [self.calculate_final_score(s)]; as in
    [Ranker.get_top_n_by], any scoring function. *)
Variable final_score : ArticleSummary.t → Q.

(** The list [scored] of [rank]: every article with its final score. *)
Definition scored_by (summaries : list ArticleSummary.t) : list (ArticleSummary.t * Q) :=
  map (fun s => (s, final_score s)) summaries.

(** The body of [ArticleRanker.rank]: [scored.sort(key=lambda x: x[1],
    reverse=True)], then the articles of the pairs. *)
Definition rank_by (summaries : list ArticleSummary.t) : list ArticleSummary.t :=
  map fst (PySort.sorted_reverse snd (scored_by summaries)).

End Scoring.

Section Clock.

Variable now : Z.
Variable strptime : string → string → option Z.

(** [ArticleRanker.rank] with the scores of [Ranker.calculate_final_score], computed
    with the default [selected=None]. *)
Definition rank (self : Ranker.ArticleRanker) (summaries : list ArticleSummary.t)
    : list ArticleSummary.t :=
  rank_by (fun s => Ranker.calculate_final_score now strptime self s []) summaries.

End Clock.

End RankAll.

(** ** The feed fetcher, continued: entries, cleaning, fetching *)

Module Regex.

(** The text after the first [>] of a string, if there is one. *)
Fixpoint after_gt (s : string) : option string :=
  match s with
  | EmptyString => None
  | String c s' => if Ascii.eqb c ">" then Some s' else after_gt s'
  end.

(** [s] is the text after a [<].  The pattern [<[^>]+>] matches at that [<] when a
    character other than [>] follows and a [>] comes later; the match ends at the
    first such [>], whose rest is returned. *)
Definition tag_end (s : string) : option string :=
  match s with
  | EmptyString => None
  | String c s' => if Ascii.eqb c ">" then None else after_gt s'
  end.

(** [re.sub(r'<[^>]+>', '', s)]: the matches are found from the left and removed.
    [inside] tells that the scan is inside a match, whose characters are dropped up
    to and with its closing [>]. *)
Fixpoint remove_tags_from (inside : bool) (s : string) : string :=
  match s with
  | EmptyString => EmptyString
  | String c s' =>
      if inside then
        (if Ascii.eqb c ">" then remove_tags_from false s' else remove_tags_from true s')
      else if Ascii.eqb c "<" && bool_decide (is_Some (tag_end s'))
      then remove_tags_from true s'
      else String c (remove_tags_from false s')
  end.

Definition remove_tags (s : string) : string := remove_tags_from false s.

(** [re.sub(r'\s+', ' ', s)]: every maximal run of whitespace becomes one space.
    [in_run] tells that the previous character was whitespace. *)
Fixpoint collapse_spaces_from (in_run : bool) (s : string) : string :=
  match s with
  | EmptyString => EmptyString
  | String c s' =>
      if Py.is_space c then
        (if in_run then collapse_spaces_from true s'
         else String " " (collapse_spaces_from true s'))
      else String c (collapse_spaces_from false s')
  end.

Definition collapse_spaces (s : string) : string := collapse_spaces_from false s.

End Regex.

(** [FeedSource] of [src/feeds/sources.py]. *)
Module FeedSource.
Record t : Type := mk {
  name : string;
  url : string;
  category : string;
  priority : Z
}.
End FeedSource.

Module FeedEntry.

(** [FeedFetcher._clean_html] *)
Definition _clean_html (text : string) : string :=
  let clean := Regex.remove_tags text in
  Py.strip (Regex.collapse_spaces clean).

Section Entries.

(** A [time.struct_time] of a feed entry, and its conversion
    [datetime.fromtimestamp(mktime(t))] ([None] when it raises). *)
Variable struct_time : Type.
Variable to_datetime : struct_time → option Z.

(** The keys of a feed entry that [_parse_entry] reads; [None] is a missing key.  A
    tag is given by its [term] attribute, [None] when it has none. *)
Record entry : Type := mk_entry {
  title : option string;
  link : option string;
  published_parsed : option struct_time;
  updated_parsed : option struct_time;
  created_parsed : option struct_time;
  summary : option string;
  description : option string;
  author : option string;
  tags : option (list (option string))
}.

(** The loop of [_parse_date] over the fields that are present and not empty. *)
Fixpoint first_date (fields : list (option struct_time)) : option Z :=
  match fields with
  | [] => None
  | None :: rest => first_date rest
  | Some t :: rest =>
      match to_datetime t with
      | Some d => Some d
      | None => first_date rest
      end
  end.

(** [FeedFetcher._parse_date] *)
Definition _parse_date (e : entry) : option Z :=
  first_date [published_parsed e; updated_parsed e; created_parsed e].

(** [FeedFetcher._parse_entry]; [now] is [datetime.now()]. *)
Definition _parse_entry (now : Z) (e : entry) (feed : FeedSource.t)
    : option RawArticle.t :=
  let title := Py.strip (default "" (title e)) in
  if negb (Py.truthy title) then None
  else
    let url := default "" (link e) in
    if negb (Py.truthy url) then None
    else
      let published := default now (_parse_date e) in
      let summary :=
        match summary e with
        | Some text => text
        | None => default "" (description e)
        end in
      let summary := _clean_html summary in
      let author := default "" (author e) in
      let tags :=
        match tags e with
        | Some ts => omap id ts
        | None => []
        end in
      Some {| RawArticle.title := title;
              RawArticle.url := url;
              RawArticle.source := FeedSource.name feed;
              RawArticle.published := published;
              RawArticle.summary :=
                if Py.truthy summary then String.substring 0 500 summary else "";
              RawArticle.author := author;
              RawArticle.tags := tags |}.

(** What a request to a feed gave: an exception or a timeout ([Failed]), or a
    response with its status and the entries that [feedparser] reads off its text. *)
Inductive response : Type :=
| Failed
| Response (status : Z) (entries : list entry).

(** [FeedFetcher.fetch_feed], from the outcome of the request. *)
Definition fetch_feed (now : Z) (feed : FeedSource.t) (r : response)
    : list RawArticle.t :=
  match r with
  | Failed => []
  | Response status entries =>
      if (status =? 200)%Z
      then omap (fun e => _parse_entry now e feed) entries
      else []
  end.

(** [FeedFetcher.fetch_all_feeds], from the outcome of the request to each feed:
    [gather] returns the results in the order of the feeds. *)
Definition fetch_all_feeds (now : Z) (feeds : list (FeedSource.t * response))
    : list RawArticle.t :=
  concat (map (fun fr => fetch_feed now (fst fr) (snd fr)) feeds).

End Entries.

End FeedEntry.

(** ** [TextCleaner] of [src/parser/cleaner.py]: whitespace and truncation *)

Module TextCleaner.

(** [TextCleaner.normalize_whitespace] *)
Definition normalize_whitespace (text : string) : string :=
  if negb (Py.truthy text) then ""
  else Py.strip (Regex.collapse_spaces text).

(** The character occurs in the string ([c in s]). *)
Fixpoint has_char (c : ascii) (s : string) : bool :=
  match s with
  | EmptyString => false
  | String d s' => Ascii.eqb d c || has_char c s'
  end.

(** [s.rsplit(' ', 1)[0]]: the text before the last space, all of [s] when it has
    no space. *)
Fixpoint before_last_space (s : string) : string :=
  match s with
  | EmptyString => EmptyString
  | String c s' =>
      if has_char " " s' then String c (before_last_space s')
      else if Ascii.eqb c " " then EmptyString
      else s
  end.

(** [s[:k]] for an integer [k]: a negative [k] counts from the end. *)
Definition slice_to (k : Z) (s : string) : string :=
  if (k <? 0)%Z then String.substring 0 (Z.to_nat (Z.of_nat (String.length s) + k)) s
  else String.substring 0 (Z.to_nat k) s.

(** [TextCleaner.truncate] *)
Definition truncate (text : string) (max_length : Z) (suffix : string) : string :=
  if negb (Py.truthy text) || (Z.of_nat (String.length text) <=? max_length)%Z
  then text
  else before_last_space
         (slice_to (max_length - Z.of_nat (String.length suffix)) text) +:+ suffix.

End TextCleaner.

(** * Properties *)

(** ** Facts about the Python built-ins *)

Module PyFacts.

Lemma Qltb_true (a b : Q) : Py.Qltb a b = true ↔ (a < b)%Q.
Proof.
  unfold Py.Qltb. rewrite negb_true_iff.
  split; intros H.
  - apply Qnot_le_lt. intros Hle. apply Qle_bool_iff in Hle. congruence.
  - destruct (Qle_bool b a) eqn:E; [|reflexivity].
    apply Qle_bool_iff in E. exfalso. exact (Qlt_not_le _ _ H E).
Qed.

Lemma Qltb_false (a b : Q) : Py.Qltb a b = false ↔ (b <= a)%Q.
Proof.
  unfold Py.Qltb. rewrite negb_false_iff. apply Qle_bool_iff.
Qed.

Lemma min_is_Qmin (a b : Q) : (Py.min a b == Qmin a b)%Q.
Proof.
  unfold Py.min. destruct (Py.Qltb b a) eqn:E.
  - apply Qltb_true in E. symmetry. apply Q.min_r. lra.
  - apply Qltb_false in E. symmetry. apply Q.min_l. exact E.
Qed.

Lemma max_is_Qmax (a b : Q) : (Py.max a b == Qmax a b)%Q.
Proof.
  unfold Py.max. destruct (Py.Qltb a b) eqn:E.
  - apply Qltb_true in E. symmetry. apply Q.max_r. lra.
  - apply Qltb_false in E. symmetry. apply Q.max_l. exact E.
Qed.

Lemma max_lower_bound (a b : Q) : (a <= Py.max a b)%Q.
Proof.
  unfold Py.max. destruct (Py.Qltb a b) eqn:E.
  - apply Qltb_true in E. lra.
  - lra.
Qed.

Lemma lower_idempotent (s : string) : Py.lower (Py.lower s) = Py.lower s.
Proof.
  induction s as [|c s IH]; simpl; [reflexivity|].
  f_equal; [|exact IH].
  clear. destruct c as [[] [] [] [] [] [] [] []]; reflexivity.
Qed.

End PyFacts.

(** ** The enricher *)

Module EnricherFacts.
Import Enricher.

Lemma fold_boost (t : string) (l : list string) (acc : Q) :
  (fold_left (boost t) l acc ==
   acc + 0.5 * inject_Z (Z.of_nat (length (List.filter (fun k => Py.contains k t) l))))%Q.
Proof.
  revert acc. induction l as [|k l IH]; intros acc; simpl.
  - change (inject_Z (Z.of_nat 0)) with 0%Q. lra.
  - unfold boost at 2. destruct (Py.contains k t); rewrite IH.
    + cbn [length]. rewrite Nat2Z.inj_succ, <- Z.add_1_r, inject_Z_plus.
      change (inject_Z 1) with 1%Q. lra.
    + reflexivity.
Qed.

(** C4, as amended.  The heuristic importance score is 5.0 plus 0.5 for every term
    of the keyword set written out below that occurs in the lower-cased title (a
    term counts once, however often it occurs; nothing but the title is read),
    clamped to at most 10.0; it always lies between 0 and 10. *)
Theorem importance_formula (article : RawArticle.t) :
  let keywords :=
    ["ai"; "artificial intelligence"; "breakthrough"; "launch";
     "announce"; "release"; "new"; "first"; "major"; "billion";
     "google"; "apple"; "microsoft"; "openai"; "meta"; "amazon"] in
  let title_lower := Py.lower (RawArticle.title article) in
  let hits :=
    length (List.filter (fun keyword => Py.contains keyword title_lower) keywords) in
  (_calculate_importance article == Qmin 10 (5 + 0.5 * inject_Z (Z.of_nat hits)))%Q
  ∧ (0 <= _calculate_importance article <= 10)%Q.
Proof.
  intros keywords title_lower hits.
  assert (Hformula :
    (_calculate_importance article == Qmin 10 (5 + 0.5 * inject_Z (Z.of_nat hits)))%Q).
  { unfold _calculate_importance. cbv zeta.
    rewrite PyFacts.min_is_Qmin, fold_boost.
    assert (E10 : (10.0 == 10)%Q) by lra.
    assert (E5 : (5.0 == 5)%Q) by lra.
    rewrite E10, E5. reflexivity. }
  split; [exact Hformula|].
  rewrite Hformula.
  assert (Hhits : (0 <= inject_Z (Z.of_nat hits))%Q).
  { change 0%Q with (inject_Z 0). rewrite <- Zle_Qle. lia. }
  destruct (Q.min_spec 10 (5 + 0.5 * inject_Z (Z.of_nat hits))) as [[? ->]|[? ->]]; lra.
Qed.

(** The score as the specification words it, for comparison: 0.5 for each
    occurrence of any term of the set.  [occurrences sub s] counts the positions
    of [s] at which [sub] starts. *)
Fixpoint occurrences (sub s : string) : nat :=
  (if String.prefix sub s then 1 else 0)
  + match s with
    | EmptyString => 0
    | String _ s' => occurrences sub s'
    end.

Definition importance_per_occurrence (title : string) : Q :=
  let keywords :=
    ["ai"; "artificial intelligence"; "breakthrough"; "launch";
     "announce"; "release"; "new"; "first"; "major"; "billion";
     "google"; "apple"; "microsoft"; "openai"; "meta"; "amazon"] in
  let total :=
    list_sum (map (fun keyword => occurrences keyword (Py.lower title)) keywords) in
  Qmin 10 (5 + 0.5 * inject_Z (Z.of_nat total)).

(** C4 as stated fails.  The title [New, new, NEW] holds three occurrences of the
    term [new] and no other term: 0.5 for each occurrence gives 6.5, the code
    returns 5.5. *)
Lemma importance_not_per_occurrence :
  (importance_per_occurrence "New, new, NEW" == 6.5)%Q
  ∧ (_calculate_importance (RawArticle.mk "New, new, NEW" "u" "s" 0 "" "" []) == 5.5)%Q.
Proof. split; vm_compute; reflexivity. Qed.

(** Four keywords occur in this title ([ai], [announce], [new], [apple]). *)
Example importance_apple_chip :
  (_calculate_importance
     (RawArticle.mk "Apple announces new AI chip" "u" "s" 0 "" "" []) == 7)%Q.
Proof. vm_compute. reflexivity. Qed.

(** A keyword that occurs three times counts once. *)
Example importance_repeated_keyword :
  (_calculate_importance (RawArticle.mk "New, new, NEW" "u" "s" 0 "" "" []) == 5.5)%Q.
Proof. vm_compute. reflexivity. Qed.

(** Eleven keywords occur: the sum 10.5 is clamped. *)
Example importance_clamped :
  (_calculate_importance
     (RawArticle.mk
        "Google, Apple, Microsoft, OpenAI, Meta, Amazon announce first major launch"
        "u" "s" 0 "" "" []) == 10)%Q.
Proof. vm_compute. reflexivity. Qed.

(** *** Categories *)

(** Some keyword of the set occurs in the lower-cased title, as a substring. *)
Definition occurs_in (title_lower : string) (keywords : list string) : Prop :=
  ∃ keyword, keyword ∈ keywords ∧ Py.contains keyword title_lower = true.

Lemma keyword_hit_occurs (t : string) (keywords : list string) :
  keyword_hit t keywords = true ↔ occurs_in t keywords.
Proof.
  unfold occurs_in. induction keywords as [|k ks IH]; simpl.
  - split; [discriminate|]. intros [k [Hk _]]. inversion Hk.
  - destruct (Py.contains k t) eqn:E.
    + split; [|reflexivity]. intros _. exists k. split; [left|exact E].
    + rewrite IH. split.
      * intros [k' [Hin Hc]]. exists k'. split; [right; exact Hin|exact Hc].
      * intros [k' [Hin Hc]]. apply elem_of_cons in Hin as [->|Hin].
        -- congruence.
        -- exists k'. split; assumption.
Qed.

Lemma keyword_miss_occurs (t : string) (keywords : list string) :
  keyword_hit t keywords = false ↔ ¬ occurs_in t keywords.
Proof.
  rewrite <- keyword_hit_occurs. destruct (keyword_hit t keywords); split; congruence.
Qed.

Lemma categorize_loop_first (t : string) (table : list (string * list string)) :
  ∀ (i : nat) (category : string) (keywords : list string),
    table !! i = Some (category, keywords) →
    occurs_in t keywords →
    (∀ j c k, (j < i)%nat → table !! j = Some (c, k) → ¬ occurs_in t k) →
    categorize_loop t table = category.
Proof.
  induction table as [|[c0 k0] table IH]; intros i category keywords Hi Hocc Hbefore.
  - discriminate.
  - destruct i as [|i]; simpl in *.
    + injection Hi as -> ->.
      apply keyword_hit_occurs in Hocc. rewrite Hocc. reflexivity.
    + assert (Hmiss : keyword_hit t k0 = false).
      { apply keyword_miss_occurs. apply (Hbefore 0%nat c0 k0); [lia|reflexivity]. }
      rewrite Hmiss. apply (IH i category keywords Hi Hocc).
      intros j c k Hj Hjk. apply (Hbefore (S j) c k); [lia|exact Hjk].
Qed.

Lemma categorize_loop_default (t : string) (table : list (string * list string)) :
  (∀ c k, (c, k) ∈ table → ¬ occurs_in t k) → categorize_loop t table = "Tech".
Proof.
  induction table as [|[c0 k0] table IH]; intros Hnone; simpl.
  - reflexivity.
  - assert (Hmiss : keyword_hit t k0 = false).
    { apply keyword_miss_occurs. apply (Hnone c0 k0). left. }
    rewrite Hmiss. apply IH. intros c k Hin. apply (Hnone c k). right. exact Hin.
Qed.

(** C8, as amended.  Categorization looks keywords up in the lower-cased title
    (hence without regard to case) against the fixed table AI/ML, Startups, Gadgets,
    Gaming, Space, Security, Software: the first category in table order one of
    whose keywords occurs in the title as a substring (inside a word or across
    words) wins, and the result is Tech when no keyword of any category occurs. *)
Theorem categorize_first_match (article : RawArticle.t) :
  let title_lower := Py.lower (RawArticle.title article) in
  map fst categories
    = ["AI/ML"; "Startups"; "Gadgets"; "Gaming"; "Space"; "Security"; "Software"]
  ∧ (∀ (i : nat) (category : string) (keywords : list string),
       categories !! i = Some (category, keywords) →
       occurs_in title_lower keywords →
       (∀ j c k, (j < i)%nat → categories !! j = Some (c, k) → ¬ occurs_in title_lower k) →
       _categorize_article article = category)
  ∧ ((∀ c k, (c, k) ∈ categories → ¬ occurs_in title_lower k) →
     _categorize_article article = "Tech").
Proof.
  intros title_lower. split; [reflexivity|]. split.
  - intros i category keywords. apply categorize_loop_first.
  - apply categorize_loop_default.
Qed.

(** The second category wins for a keyword that spans two words of the title. *)
Lemma categorize_first_match_witness :
  _categorize_article (RawArticle.mk "Series A round closes" "u" "s" 0 "" "" [])
  = "Startups".
Proof.
  apply (proj1 (proj2 (categorize_first_match
           (RawArticle.mk "Series A round closes" "u" "s" 0 "" "" [])))
         1%nat "Startups"
         ["startup"; "funding"; "venture"; "seed"; "series a"; "series b"; "valuation"]).
  - reflexivity.
  - apply keyword_hit_occurs. reflexivity.
  - intros j c k Hj Hjk. destruct j as [|j]; [|lia].
    injection Hjk as <- <-. apply keyword_miss_occurs. reflexivity.
Defined.

(** The words of a title: its maximal runs of characters that are not whitespace
    ([str.split()] without arguments). *)
Fixpoint words_from (current : string) (s : string) : list string :=
  match s with
  | EmptyString => if Py.truthy current then [current] else []
  | String c s' =>
      if Py.is_space c
      then (if Py.truthy current then [current] else []) ++ words_from EmptyString s'
      else words_from (current +:+ String c EmptyString) s'
  end.

Definition words (s : string) : list string := words_from EmptyString s.

(** C8 as stated fails.  In the title [Miseries abound] no keyword of any category
    matches a word, not even as a part of a word; the claim gives Tech, and the code
    returns Startups, because [series a] occurs in the title across the two words. *)
Lemma categorize_not_by_words :
  let article := RawArticle.mk "Miseries abound" "u" "s" 0 "" "" [] in
  words (Py.lower (RawArticle.title article)) = ["miseries"; "abound"]
  ∧ Forall (fun entry : string * list string =>
              Forall (fun word =>
                        Forall (fun keyword => Py.contains keyword word = false)
                               (snd entry))
                     (words (Py.lower (RawArticle.title article))))
           categories
  ∧ _categorize_article article = "Startups"
  ∧ _categorize_article article ≠ "Tech".
Proof.
  cbv zeta. split; [reflexivity|]. split.
  - repeat (apply Forall_cons; split); try apply Forall_nil; reflexivity.
  - split; [reflexivity|]. vm_compute. discriminate.
Qed.

(** The same keyword, this time along two whole words of the title. *)
Example categorize_across_words :
  _categorize_article (RawArticle.mk "Series A round closes" "u" "s" 0 "" "" [])
  = "Startups".
Proof. reflexivity. Qed.

(** A keyword inside a longer word matches too: [happy] contains [app]. *)
Example categorize_inside_a_word :
  _categorize_article (RawArticle.mk "Happy days" "u" "s" 0 "" "" []) = "Software".
Proof. reflexivity. Qed.

(** *** Key points *)

(** The stripped fragments of a summary: ellipses collapsed to one period, the text
    cut at every period, every piece stripped. *)
Definition fragments (summary : string) : list string :=
  map Py.strip (Py.split "." (Py.replace "..." "." summary)).

(** The extraction as the claim words it: fragments under 20 characters are
    dropped, so a fragment of exactly 20 characters stays. *)
Definition key_points_as_stated (summary : string) : list string :=
  take 3 (List.filter (fun f => negb (Nat.ltb (String.length f) 20)) (fragments summary)).

Lemma long_is_truthy (s : string) :
  Nat.ltb 20 (String.length s) = true → Py.truthy s = true.
Proof. destruct s; [discriminate|reflexivity]. Qed.

Lemma map_filter_comm {A B : Type} (f : A → B) (p : B → bool) (l : list A) :
  map f (List.filter (fun a => p (f a)) l) = List.filter p (map f l).
Proof.
  induction l as [|a l IH]; simpl; [reflexivity|].
  destruct (p (f a)); simpl; rewrite IH; reflexivity.
Qed.

(** C9, as amended.  Key-point extraction collapses ellipses to a single period,
    splits on periods, strips each fragment, drops the fragments of 20 characters or
    fewer (it keeps those longer than 20) and keeps the first 3 that remain; the
    result has at most 3 entries, and the empty summary gives the empty sequence. *)
Theorem key_points_pipeline (summary : string) :
  _extract_key_points summary
    = take 3 (List.filter (fun f => Nat.ltb 20 (String.length f)) (fragments summary))
  ∧ (length (_extract_key_points summary) <= 3)%nat
  ∧ _extract_key_points "" = [].
Proof.
  assert (Heq : _extract_key_points summary
    = take 3 (List.filter (fun f => Nat.ltb 20 (String.length f)) (fragments summary))).
  { unfold _extract_key_points, fragments.
    destruct summary as [|c summary]; [reflexivity|].
    cbn [Py.truthy negb]. cbv zeta.
    rewrite <- (map_filter_comm Py.strip (fun f => Nat.ltb 20 (String.length f))).
    do 2 f_equal. apply List.filter_ext. intros s.
    destruct (Nat.ltb 20 (String.length (Py.strip s))) eqn:E.
    - rewrite (long_is_truthy _ E). reflexivity.
    - apply andb_false_r. }
  split; [exact Heq|]. split; [|reflexivity].
  rewrite Heq, length_take. lia.
Qed.

(** C9 as stated fails.  A fragment of exactly 20 characters is not under 20
    characters, so the claim keeps it; the code drops it. *)
Lemma key_points_twenty_characters :
  let summary := "Apple ships new chip. Read more" in
  String.length "Apple ships new chip" = 20%nat
  ∧ key_points_as_stated summary = ["Apple ships new chip"]
  ∧ _extract_key_points summary = [].
Proof. cbv zeta. repeat split; reflexivity. Qed.

(** One character more and the fragment is kept. *)
Example key_points_twenty_one_characters :
  _extract_key_points "Apple ships new chips. Read more" = ["Apple ships new chips"].
Proof. reflexivity. Qed.

Example key_points_first_three :
  _extract_key_points
    "The first sentence is long enough... The second sentence is long enough. Short one.   The third sentence is long enough.  The fourth sentence is long enough."
  = ["The first sentence is long enough"; "The second sentence is long enough";
     "The third sentence is long enough"].
Proof. reflexivity. Qed.

(** A leading no-break space (U+00A0) is stripped like any other whitespace: the
    first fragment has 20 characters and is dropped. *)
Example key_points_no_break_space :
  _extract_key_points (String "160" "Apple ships new chip. Read more") = [].
Proof. reflexivity. Qed.

End EnricherFacts.

(** ** The fetcher: deduplication *)

Module FetcherFacts.
Import Fetcher.

(** The articles that the loop appends when it starts with [seen_urls]. *)
Fixpoint first_seen (seen_urls : gset string) (articles : list RawArticle.t)
    : list RawArticle.t :=
  match articles with
  | [] => []
  | article :: rest =>
      if decide (RawArticle.url article ∈ seen_urls) then first_seen seen_urls rest
      else article :: first_seen ({[RawArticle.url article]} ∪ seen_urls) rest
  end.

Lemma deduplicate_loop_first_seen (articles : list RawArticle.t) :
  ∀ seen_urls unique_articles,
    deduplicate_loop articles seen_urls unique_articles
    = (unique_articles ++ first_seen seen_urls articles)%list.
Proof.
  induction articles as [|a rest IH]; intros seen acc; simpl.
  - rewrite app_nil_r. reflexivity.
  - destruct (decide (RawArticle.url a ∈ seen)).
    + apply IH.
    + rewrite IH, <- app_assoc. reflexivity.
Qed.

Lemma first_seen_sublist (articles : list RawArticle.t) :
  ∀ seen, first_seen seen articles `sublist_of` articles.
Proof.
  induction articles as [|a rest IH]; intros seen; simpl.
  - constructor.
  - destruct (decide (RawArticle.url a ∈ seen)).
    + apply sublist_cons, IH.
    + apply sublist_skip, IH.
Qed.

Lemma first_seen_urls (articles : list RawArticle.t) :
  ∀ seen u,
    u ∈ map RawArticle.url (first_seen seen articles)
    ↔ u ∈ map RawArticle.url articles ∧ u ∉ seen.
Proof.
  induction articles as [|a rest IH]; intros seen u; simpl.
  - split; [intros H; inversion H|intros [H _]; inversion H].
  - destruct (decide (RawArticle.url a ∈ seen)) as [Hin|Hout]; simpl.
    + rewrite IH, elem_of_cons. split; [tauto|].
      intros [[->|Hu] Hs]; [contradiction|tauto].
    + rewrite !elem_of_cons, IH, not_elem_of_union, not_elem_of_singleton.
      destruct (decide (u = RawArticle.url a)) as [->|Hne]; tauto.
Qed.

Lemma first_seen_NoDup (articles : list RawArticle.t) :
  ∀ seen, NoDup (map RawArticle.url (first_seen seen articles)).
Proof.
  induction articles as [|a rest IH]; intros seen; simpl.
  - constructor.
  - destruct (decide (RawArticle.url a ∈ seen)); simpl.
    + apply IH.
    + apply NoDup_cons. split; [|apply IH].
      rewrite first_seen_urls, not_elem_of_union, not_elem_of_singleton. tauto.
Qed.

(** [a] stands in [articles] at a position before which no article has its url. *)
Definition first_occurrence (articles : list RawArticle.t) (a : RawArticle.t) : Prop :=
  ∃ i : nat,
    articles !! i = Some a
    ∧ ∀ (j : nat) (b : RawArticle.t),
        (j < i)%nat → articles !! j = Some b → RawArticle.url b ≠ RawArticle.url a.

Lemma first_seen_first_occurrence (articles : list RawArticle.t) :
  ∀ seen a, a ∈ first_seen seen articles → first_occurrence articles a.
Proof.
  induction articles as [|x rest IH]; intros seen a Ha; simpl in Ha.
  - inversion Ha.
  - assert (Hshift : ∀ seen', a ∈ first_seen seen' rest →
              RawArticle.url x ≠ RawArticle.url a → first_occurrence (x :: rest) a).
    { intros seen' Hin Hne. destruct (IH seen' a Hin) as [i [Hi Hbefore]].
      exists (S i). split; [exact Hi|].
      intros [|j] b Hj Hb; simpl in Hb.
      - injection Hb as <-. exact Hne.
      - apply (Hbefore j b); [lia|exact Hb]. }
    destruct (decide (RawArticle.url x ∈ seen)) as [Hin|Hout].
    + apply (Hshift seen Ha).
      assert (Hu : RawArticle.url a ∈ map RawArticle.url (first_seen seen rest)).
      { apply list_elem_of_fmap. exists a. split; [reflexivity|exact Ha]. }
      apply first_seen_urls in Hu. intros Heq. rewrite Heq in Hin. tauto.
    + apply elem_of_cons in Ha as [->|Ha].
      * exists 0%nat. split; [reflexivity|]. intros j b Hj. lia.
      * apply (Hshift _ Ha).
        assert (Hu : RawArticle.url a
                     ∈ map RawArticle.url (first_seen ({[RawArticle.url x]} ∪ seen) rest)).
        { apply list_elem_of_fmap. exists a. split; [reflexivity|exact Ha]. }
        apply first_seen_urls in Hu as [_ Hu].
        rewrite not_elem_of_union, not_elem_of_singleton in Hu.
        intros Heq. symmetry in Heq. tauto.
Qed.

Lemma first_seen_unchanged (articles : list RawArticle.t) :
  ∀ seen,
    NoDup (map RawArticle.url articles) →
    (∀ u, u ∈ map RawArticle.url articles → u ∉ seen) →
    first_seen seen articles = articles.
Proof.
  induction articles as [|a rest IH]; intros seen Hnd Hfresh; simpl.
  - reflexivity.
  - simpl in Hnd. apply NoDup_cons in Hnd as [Ha Hnd].
    destruct (decide (RawArticle.url a ∈ seen)) as [Hin|Hout].
    + exfalso. apply (Hfresh (RawArticle.url a)); [simpl; left|exact Hin].
    + f_equal. apply IH; [exact Hnd|].
      intros u Hu. rewrite not_elem_of_union, not_elem_of_singleton. split.
      * intros ->. contradiction.
      * apply Hfresh. simpl. right. exact Hu.
Qed.

(** C5.  [deduplicate] returns a subsequence of its input (so the input order is
    kept) in which no url is repeated, every url of the input is present, and every
    article kept is the first one of the input with its url; an input without
    repeated urls is returned unchanged. *)
Theorem deduplicate_first_occurrences (articles : list RawArticle.t) :
  deduplicate articles `sublist_of` articles
  ∧ NoDup (map RawArticle.url (deduplicate articles))
  ∧ (∀ u, u ∈ map RawArticle.url (deduplicate articles)
          ↔ u ∈ map RawArticle.url articles)
  ∧ (∀ a, a ∈ deduplicate articles → first_occurrence articles a)
  ∧ (NoDup (map RawArticle.url articles) → deduplicate articles = articles).
Proof.
  unfold deduplicate. rewrite deduplicate_loop_first_seen. cbn [app].
  split; [apply first_seen_sublist|].
  split; [apply first_seen_NoDup|].
  split.
  { intros u. rewrite first_seen_urls. split; [tauto|].
    intros Hu. split; [exact Hu|apply not_elem_of_empty]. }
  split; [apply first_seen_first_occurrence|].
  intros Hnd. apply first_seen_unchanged; [exact Hnd|].
  intros u _. apply not_elem_of_empty.
Qed.

(** Two articles with different urls come back as they are. *)
Lemma deduplicate_first_occurrences_witness :
  deduplicate [RawArticle.mk "t1" "u1" "s" 0 "" "" []; RawArticle.mk "t2" "u2" "s" 0 "" "" []]
  = [RawArticle.mk "t1" "u1" "s" 0 "" "" []; RawArticle.mk "t2" "u2" "s" 0 "" "" []].
Proof.
  apply (proj2 (proj2 (proj2 (proj2 (deduplicate_first_occurrences
           [RawArticle.mk "t1" "u1" "s" 0 "" "" [];
            RawArticle.mk "t2" "u2" "s" 0 "" "" []]))))).
  simpl. apply NoDup_cons. split.
  - intros H. apply list_elem_of_singleton in H. discriminate.
  - apply NoDup_cons. split; [intros H; inversion H|constructor].
Defined.

(** The second article of a url is dropped, whatever else it carries. *)
Example deduplicate_keeps_first :
  deduplicate [RawArticle.mk "first" "u1" "s" 0 "" "" [];
               RawArticle.mk "other" "u2" "s" 0 "" "" [];
               RawArticle.mk "second" "u1" "s" 0 "" "" []]
  = [RawArticle.mk "first" "u1" "s" 0 "" "" []; RawArticle.mk "other" "u2" "s" 0 "" "" []].
Proof. vm_compute. reflexivity. Qed.

End FetcherFacts.

(** ** The ranker: recency and the final score *)

Module RankerFacts.
Import Ranker.

(** Case analysis on a comparison [Qle_bool x y] of the code, as a fact on [x], [y]. *)
Ltac case_le :=
  match goal with
  | |- context [Qle_bool ?x ?y] =>
      let E := fresh "Hle" in
      destruct (Qle_bool x y) eqn:E;
      [apply Qle_bool_iff in E
      |assert (y < x)%Q by
         (apply Qnot_le_lt; intros Hc; apply Qle_bool_iff in Hc; congruence);
       clear E]
  end.

Section Recency.

Variable now : Z.
Variable strptime : string → string → option Z.

(** The instant that the code reads off a [published] value: a [datetime] is taken as
    it is; of a string the first 19 characters are parsed, with the first of the
    three formats that accepts them. *)
Definition reads_as (published : published_value) (d : Z) : Prop :=
  match published with
  | PubDatetime d' => d' = d
  | PubStr s =>
      ∃ (i : nat) (fmt : string),
        formats !! i = Some fmt
        ∧ strptime (String.substring 0 19 s) fmt = Some d
        ∧ ∀ (j : nat) (fmt' : string),
            (j < i)%nat → formats !! j = Some fmt' →
            strptime (String.substring 0 19 s) fmt' = None
  end.


Lemma try_formats_first (text : string) (fmts : list string) (d : Z) :
  (∃ (i : nat) (fmt : string),
      fmts !! i = Some fmt ∧ strptime text fmt = Some d
      ∧ ∀ (j : nat) (fmt' : string),
          (j < i)%nat → fmts !! j = Some fmt' → strptime text fmt' = None) →
  try_formats strptime text fmts = Some d.
Proof.
  induction fmts as [|f fmts IH]; intros [i [fmt [Hi [Hd Hbefore]]]].
  - discriminate.
  - simpl. destruct i as [|i]; simpl in Hi.
    + injection Hi as ->. rewrite Hd. reflexivity.
    + rewrite (Hbefore 0%nat f); [|lia|reflexivity].
      apply IH. exists i, fmt. split; [exact Hi|]. split; [exact Hd|].
      intros j fmt' Hj Hjf. apply (Hbefore (S j) fmt'); [lia|exact Hjf].
Qed.


Lemma recency_of_reads (published : published_value) (d : Z) :
  reads_as published d →
  calculate_recency_score now strptime published = recency_of_hours (hours_ago now d).
Proof.
  intros Hread. unfold calculate_recency_score.
  destruct published as [s|d']; simpl in Hread.
  - rewrite (try_formats_first _ _ d Hread). reflexivity.
  - rewrite Hread. reflexivity.
Qed.

Lemma recency_of_hours_at_least_one (hours : Q) : (1 <= recency_of_hours hours)%Q.
Proof.
  unfold recency_of_hours. repeat (case_le; [lra|]).
  eapply Qle_trans; [|apply PyFacts.max_lower_bound]. lra.
Qed.

Lemma recency_of_hours_at_most_ten (hours : Q) : (recency_of_hours hours <= 10)%Q.
Proof.
  unfold recency_of_hours. repeat (case_le; [lra|]).
  rewrite PyFacts.max_is_Qmax.
  apply Q.max_lub; unfold Qdiv; change (/ 24)%Q with (1 # 24)%Q; lra.
Qed.

Lemma recency_at_least_one (published : published_value) :
  (1 <= calculate_recency_score now strptime published)%Q.
Proof.
  unfold calculate_recency_score.
  destruct (match published with
            | PubStr s => try_formats strptime (String.substring 0 19 s) formats
            | PubDatetime d => Some d
            end).
  - apply recency_of_hours_at_least_one.
  - lra.
Qed.


End Recency.


Example recency_unparsable :
  calculate_recency_score 0 (fun _ _ => None) (PubStr "yesterday") = 5.0%Q.
Proof. reflexivity. Qed.

Example recency_at_the_bounds :
  let at_hours (h : Z) := calculate_recency_score (h * 3600 * 1000000) (fun _ _ => None)
                            (PubDatetime 0) in
  (at_hours 1%Z == 10 ∧ at_hours 6%Z == 9 ∧ at_hours 12%Z == 7 ∧ at_hours 24%Z == 5
   ∧ at_hours 48%Z == 4 ∧ at_hours 120%Z == 1 ∧ at_hours 1000%Z == 1)%Q.
Proof. cbv zeta. repeat split; vm_compute; reflexivity. Qed.

(** *** The diversity penalty and the final score *)

Section Scores.

Variable now : Z.
Variable strptime : string → string → option Z.

Local Abbreviation final_score := (calculate_final_score now strptime).

Lemma final_score_nonneg (self : ArticleRanker) (article : ArticleSummary.t)
    (selected : list ArticleSummary.t) :
  (0 <= final_score self article selected)%Q.
Proof.
  unfold calculate_final_score. cbv zeta.
  eapply Qle_trans; [|apply PyFacts.max_lower_bound]. lra.
Qed.

Lemma penalty_same_source (A B : ArticleSummary.t) :
  ArticleSummary.source A = ArticleSummary.source B →
  (2 <= calculate_diversity_penalty B [A])%Q.
Proof.
  intros Hsrc. unfold calculate_diversity_penalty, penalty_step. simpl.
  rewrite Hsrc, String.eqb_refl.
  destruct (String.eqb (ArticleSummary.category B) (ArticleSummary.category A)); lra.
Qed.

(** C2.  With the default weights, an article [B] whose importance lies in [0, 10]
    scores strictly less after an article [A] of the same source has been selected
    than before any selection; the penalty for the shared source is at least 2. *)
Theorem same_source_lowers_score (A B : ArticleSummary.t) :
  ArticleSummary.source A = ArticleSummary.source B →
  (0 <= ArticleSummary.importance_score B)%Q →
  (ArticleSummary.importance_score B <= 10)%Q →
  (2 <= calculate_diversity_penalty B [A])%Q
  ∧ (final_score default_ranker B [A] < final_score default_ranker B [])%Q.
Proof.
  intros Hsrc Hlow Hhigh.
  pose proof (penalty_same_source A B Hsrc) as Hpen.
  split; [exact Hpen|].
  unfold calculate_final_score. cbv zeta.
  pose proof (recency_at_least_one now strptime
                (PubStr (ArticleSummary.published B))) as Hrec.
  set (recency := calculate_recency_score now strptime _) in *.
  set (penalty := calculate_diversity_penalty B [A]) in *.
  change (calculate_diversity_penalty B []) with 0.0%Q.
  cbn [recency_weight importance_weight diversity_weight default_ranker].
  rewrite !PyFacts.max_is_Qmax.
  set (imp := ArticleSummary.importance_score B) in *.
  destruct (Q.max_spec 0.0 (0.6 * imp + 0.2 * recency - 0.2 * penalty)) as [[? ->]|[? ->]];
    destruct (Q.max_spec 0.0 (0.6 * imp + 0.2 * recency - 0.2 * 0.0)) as [[? ->]|[? ->]];
    lra.
Qed.

(** C10.  When the input has at most [n] elements, [get_top_n] returns the input
    list itself, in its input order, whatever the weights, the clock and the scores:
    the greedy re-scoring is not run. *)
Theorem get_top_n_short_input (self : ArticleRanker) (summaries : list ArticleSummary.t)
    (n : Z) :
  (Z.of_nat (length summaries) <= n)%Z →
  get_top_n now strptime self summaries n = Returns summaries.
Proof.
  intros Hlen. unfold get_top_n, get_top_n_by.
  apply Z.leb_le in Hlen. rewrite Hlen. reflexivity.
Qed.

End Scores.

Definition article_a : ArticleSummary.t :=
  ArticleSummary.mk "a" "https://x/a" "The Verge" "2024-01-01 00:00:00" "" [] 1 "Tech".
Definition article_b : ArticleSummary.t :=
  ArticleSummary.mk "b" "https://x/b" "The Verge" "2024-01-01 00:00:00" "" [] 9 "AI/ML".
Definition article_c : ArticleSummary.t :=
  ArticleSummary.mk "c" "https://y/c" "Wired" "2024-01-01 00:00:00" "" [] 8 "Tech".

(** A clock and a parser for closed examples: no string parses, so every recency
    score is the neutral 5. *)
Definition no_parse : string → string → option Z := fun _ _ => None.

Lemma same_source_lowers_score_witness :
  (calculate_final_score 0 no_parse default_ranker article_b [article_a]
   < calculate_final_score 0 no_parse default_ranker article_b [])%Q.
Proof.
  apply (same_source_lowers_score 0 no_parse article_a article_b).
  - reflexivity.
  - simpl. lra.
  - simpl. lra.
Defined.

(** The low-scoring article stays first: two articles, [n = 5]. *)
Lemma get_top_n_short_input_witness :
  get_top_n 0 no_parse default_ranker [article_a; article_b] 5
  = Returns [article_a; article_b].
Proof.
  apply (get_top_n_short_input 0 no_parse default_ranker [article_a; article_b] 5).
  simpl. lia.
Defined.

(** *** The greedy selection *)

(** The position of the highest score of a list, the earliest one when several
    positions hold it (0 for the empty list). *)
Fixpoint argmax_first (scores : list Q) : nat :=
  match scores with
  | [] => 0
  | s :: rest =>
      if forallb (fun s' => Qle_bool s' s) rest then 0 else S (argmax_first rest)
  end.

Lemma argmax_first_bound (scores : list Q) :
  scores ≠ [] → (argmax_first scores < length scores)%nat.
Proof.
  induction scores as [|s rest IH]; intros Hne; [congruence|].
  simpl. destruct (forallb (fun s' => Qle_bool s' s) rest) eqn:E; [lia|].
  destruct rest as [|t rest]; [discriminate|].
  specialize (IH ltac:(discriminate)). simpl in *. lia.
Qed.

Lemma forallb_le_true (s : Q) (rest : list Q) :
  forallb (fun s' => Qle_bool s' s) rest = true
  ↔ ∀ (j : nat) (t : Q), rest !! j = Some t → (t <= s)%Q.
Proof.
  induction rest as [|x rest IH]; simpl.
  - split; [intros _ j t Hj; discriminate|reflexivity].
  - rewrite andb_true_iff, IH, Qle_bool_iff. split.
    + intros [Hx Hrest] [|j] t Hj; simpl in Hj.
      * injection Hj as <-. exact Hx.
      * apply (Hrest j t Hj).
    + intros H. split; [apply (H 0%nat x); reflexivity|].
      intros j t Hj. apply (H (S j) t Hj).
Qed.

Lemma forallb_le_false (s : Q) (rest : list Q) :
  forallb (fun s' => Qle_bool s' s) rest = false →
  ∃ (j : nat) (t : Q), rest !! j = Some t ∧ (s < t)%Q.
Proof.
  induction rest as [|x rest IH]; simpl; [discriminate|].
  destruct (Qle_bool x s) eqn:E; simpl.
  - intros H. destruct (IH H) as [j [t [Hj Ht]]]. exists (S j), t. split; assumption.
  - intros _. exists 0%nat, x. split; [reflexivity|].
    apply Qnot_le_lt. intros Hc. apply Qle_bool_iff in Hc. congruence.
Qed.

(** [argmax_first] is what its name says: no score is higher than the one at the
    position it returns, and every score before that position is strictly lower. *)
Lemma argmax_first_highest (scores : list Q) :
  scores ≠ [] →
  ∃ best : Q,
    scores !! argmax_first scores = Some best
    ∧ (∀ (j : nat) (t : Q), scores !! j = Some t → (t <= best)%Q)
    ∧ (∀ (j : nat) (t : Q),
         (j < argmax_first scores)%nat → scores !! j = Some t → (t < best)%Q).
Proof.
  induction scores as [|s rest IH]; intros Hne; [congruence|].
  simpl. destruct (forallb (fun s' => Qle_bool s' s) rest) eqn:E.
  - exists s. split; [reflexivity|]. split.
    + intros [|j] t Hj; simpl in Hj.
      * injection Hj as <-. lra.
      * apply (proj1 (forallb_le_true s rest) E j t Hj).
    + intros j t Hj. lia.
  - destruct (forallb_le_false s rest E) as [j0 [t0 [Hj0 Ht0]]].
    assert (Hrest : rest ≠ []) by (intros ->; discriminate).
    destruct (IH Hrest) as [best [Hbest [Hmax Hearlier]]].
    exists best. split; [exact Hbest|].
    assert (Hs : (s < best)%Q).
    { eapply Qlt_le_trans; [exact Ht0|]. apply (Hmax j0 t0 Hj0). }
    split.
    + intros [|j] t Hj; simpl in Hj.
      * injection Hj as <-. lra.
      * apply (Hmax j t Hj).
    + intros [|j] t Hlt Hj; simpl in Hj.
      * injection Hj as <-. exact Hs.
      * apply (Hearlier j t); [lia|exact Hj].
Qed.

Section Greedy.

(** The scores that the loop obtains from [calculate_final_score]: any function,
    as in [get_top_n_by], that is never negative.  [calculate_final_score] ends in
    [max(0.0, final_score)], so the scores of the program, rounded as they are,
    satisfy this. *)
Variable score : ArticleSummary.t → list ArticleSummary.t → Q.
Hypothesis score_not_negative :
  ∀ (article : ArticleSummary.t) (selected : list ArticleSummary.t),
    (0 <= score article selected)%Q.

(** The final score of a candidate against the current selection. *)
Definition score_against (selected : list ArticleSummary.t) (article : ArticleSummary.t)
    : Q :=
  score article selected.

(** The reference greedy algorithm, after the words of the spec: while selections
    are left to make ([k]) and the pool is not empty, score every candidate of the
    pool against the current selection, and move the highest-scoring one (the
    earliest on ties) from the pool to the end of the selection. *)
Fixpoint greedy (k : nat) (selected pool : list ArticleSummary.t)
    : list ArticleSummary.t :=
  match k, pool with
  | O, _ => selected
  | S _, [] => selected
  | S k', _ =>
      let i := argmax_first (map (score_against selected) pool) in
      match pool !! i with
      | Some best => greedy k' (selected ++ [best]) (delete i pool)
      | None => selected
      end
  end.

(** The reference algorithm run for [n] selections from an empty selection. *)
Definition reference_top_n (summaries : list ArticleSummary.t) (n : Z)
    : list ArticleSummary.t :=
  greedy (Z.to_nat n) [] summaries.

(** The inner loop of [get_top_n] started at position [o] with a given state. *)
Definition scan_from (selected : list ArticleSummary.t) (o : nat)
    (l : list ArticleSummary.t) (best : Q * nat) : Q * nat :=
  fold_left (scan_step score selected) (imap (fun i x => ((o + i)%nat, x)) l) best.

Lemma scan_from_cons (selected : list ArticleSummary.t) (o : nat) (x : ArticleSummary.t)
    (l : list ArticleSummary.t) (best : Q * nat) :
  scan_from selected o (x :: l) best
  = scan_from selected (S o) l (scan_step score selected best (o, x)).
Proof.
  unfold scan_from. simpl. rewrite Nat.add_0_r. f_equal.
  apply imap_ext. intros i y _. simpl. f_equal. lia.
Qed.

Lemma not_all_below (selected : list ArticleSummary.t) (b s : Q)
    (l : list ArticleSummary.t) :
  existsb (fun a => Py.Qltb b (score_against selected a)) l = true →
  (s <= b)%Q →
  forallb (fun s' => Qle_bool s' s) (map (score_against selected) l) = false.
Proof.
  intros Hex Hsb.
  destruct (forallb (fun s' => Qle_bool s' s) (map (score_against selected) l)) eqn:E;
    [|reflexivity].
  apply existsb_exists in Hex as [a [Hin Ha]].
  apply PyFacts.Qltb_true in Ha.
  rewrite forallb_forall in E.
  specialize (E (score_against selected a) (in_map _ _ _ Hin)).
  apply Qle_bool_iff in E. lra.
Qed.

Lemma all_below_iff (selected : list ArticleSummary.t) (s : Q)
    (l : list ArticleSummary.t) :
  forallb (fun s' => Qle_bool s' s) (map (score_against selected) l)
  = negb (existsb (fun a => Py.Qltb s (score_against selected a)) l).
Proof.
  induction l as [|a l IH]; simpl; [reflexivity|].
  rewrite IH, negb_orb. unfold Py.Qltb. rewrite negb_involutive. reflexivity.
Qed.

(** What the inner loop leaves in [best_idx]: the position of the earliest highest
    score when some score beats the initial [best_score], the initial index
    otherwise. *)
Lemma scan_from_index (selected l : list ArticleSummary.t) :
  ∀ (o : nat) (b : Q) (bi : nat),
    snd (scan_from selected o l (b, bi))
    = if existsb (fun a => Py.Qltb b (score_against selected a)) l
      then (o + argmax_first (map (score_against selected) l))%nat
      else bi.
Proof.
  induction l as [|x l IH]; intros o b bi.
  - reflexivity.
  - rewrite scan_from_cons. unfold scan_step. cbn [fst snd].
    fold (score_against selected x).
    destruct (Py.Qltb b (score_against selected x)) eqn:Hx.
    + rewrite IH. cbn [existsb map argmax_first]. rewrite Hx. cbn [orb].
      rewrite all_below_iff.
      destruct (existsb _ l); cbn [negb]; lia.
    + rewrite IH. cbn [existsb map argmax_first]. rewrite Hx. cbn [orb].
      destruct (existsb (fun a => Py.Qltb b (score_against selected a)) l) eqn:Hex;
        [|reflexivity].
      apply PyFacts.Qltb_false in Hx.
      rewrite (not_all_below selected b _ l Hex Hx). lia.
Qed.

Lemma best_index_argmax (selected remaining : list ArticleSummary.t) :
  best_index score selected remaining
  = argmax_first (map (score_against selected) remaining).
Proof.
  unfold best_index, enumerate.
  change (fold_left _ _ _) with (scan_from selected 0 remaining ((-1)%Q, 0%nat)).
  rewrite scan_from_index.
  destruct remaining as [|x l]; [reflexivity|].
  assert (Hx : Py.Qltb (-1) (score_against selected x) = true).
  { apply PyFacts.Qltb_true.
    pose proof (score_not_negative x selected).
    unfold score_against. lra. }
  cbn [existsb]. rewrite Hx. reflexivity.
Qed.

(** The [while] loop computes the reference selection, does not raise, and
    [length remaining] turns are enough. *)
Lemma select_loop_greedy (n : Z) (fuel : nat) :
  ∀ selected remaining : list ArticleSummary.t,
    (length remaining <= fuel)%nat →
    select_loop score fuel n selected remaining
    = Returns (greedy (Z.to_nat (n - Z.of_nat (length selected))) selected remaining).
Proof.
  induction fuel as [|fuel IH]; intros selected remaining Hfuel.
  - destruct remaining as [|x l]; [|simpl in Hfuel; lia].
    simpl. rewrite andb_false_r.
    destruct (Z.to_nat (n - Z.of_nat (length selected))); reflexivity.
  - cbn [select_loop].
    destruct (Z.of_nat (length selected) <? n)%Z eqn:Hlt.
    + destruct remaining as [|x l].
      * cbn. destruct (Z.to_nat (n - Z.of_nat (length selected))); reflexivity.
      * cbn [Py.nonempty andb]. apply Z.ltb_lt in Hlt.
        rewrite best_index_argmax.
        set (pool := x :: l) in *.
        set (i := argmax_first (map (score_against selected) pool)).
        assert (Hi : (i < length pool)%nat).
        { unfold i. rewrite <- (length_map (score_against selected) pool).
          apply argmax_first_bound. discriminate. }
        destruct (lookup_lt_is_Some_2 pool i Hi) as [best Hbest].
        unfold pop. rewrite Hbest.
        rewrite IH.
        2:{ rewrite length_delete by (exists best; exact Hbest). lia. }
        rewrite length_app. cbn [length].
        replace (Z.to_nat (n - Z.of_nat (length selected)))
          with (S (Z.to_nat (n - Z.of_nat (length selected + 1)))) by lia.
        cbn [greedy]. unfold pool at 1. fold pool. fold i. rewrite Hbest. reflexivity.
    + cbn [andb]. apply Z.ltb_ge in Hlt.
      replace (Z.to_nat (n - Z.of_nat (length selected))) with 0%nat by lia.
      reflexivity.
Qed.

(** C3, as amended.  Whatever scores [calculate_final_score] returns, as long as
    none is negative: for every input list with more than [n] elements,
    [get_top_n] returns, without raising, what the reference greedy algorithm
    selects.  It recomputes every remaining candidate's final score against the
    current selection, moves the highest-scoring candidate (the earliest one when
    several candidates have that same score) into the selection, and stops after
    [n] selections or on an empty pool. *)
Theorem get_top_n_is_greedy (summaries : list ArticleSummary.t) (n : Z) :
  (n < Z.of_nat (length summaries))%Z →
  get_top_n_by score summaries n = Returns (reference_top_n summaries n).
Proof.
  intros Hlen. unfold get_top_n_by, reference_top_n.
  apply Z.leb_gt in Hlen. rewrite Hlen.
  rewrite select_loop_greedy by lia.
  cbn [length]. rewrite Z.sub_0_r. reflexivity.
Qed.

End Greedy.

(** Three articles, two selections: the best one, then the best of another source. *)
Lemma get_top_n_is_greedy_witness :
  get_top_n 0 no_parse default_ranker [article_a; article_b; article_c] 2
  = Returns (reference_top_n (calculate_final_score 0 no_parse default_ranker)
               [article_a; article_b; article_c] 2).
Proof.
  apply (get_top_n_is_greedy (calculate_final_score 0 no_parse default_ranker)
           (final_score_nonneg 0 no_parse default_ranker)
           [article_a; article_b; article_c] 2).
  simpl. lia.
Defined.

Example get_top_n_three_articles :
  get_top_n 0 no_parse default_ranker [article_a; article_b; article_c] 2
  = Returns [article_b; article_c].
Proof. vm_compute. reflexivity. Qed.

(** C3 as stated fails.  On an input of 2 articles with [n = 5] the reference
    algorithm selects the higher-scoring article first; [get_top_n] returns the
    input in its input order. *)
Lemma get_top_n_not_greedy_on_short_input :
  get_top_n 0 no_parse default_ranker [article_a; article_b] 5
    = Returns [article_a; article_b]
  ∧ reference_top_n (calculate_final_score 0 no_parse default_ranker)
      [article_a; article_b] 5
    = [article_b; article_a].
Proof. split; vm_compute; reflexivity. Qed.

End RankerFacts.

(** ** Sorting *)

Module PySortFacts.
Import PySort.

Section SortedFacts.
Context {A : Type}.
Variable key : A → Q.

(** Descending in the key: every element's key is at least the key of every later
    element. *)
Definition descending (l : list A) : Prop :=
  StronglySorted (fun a b => (key b <= key a)%Q) l.

Lemma insert_desc_perm (x : A) (l : list A) :
  Permutation (insert_desc key x l) (x :: l).
Proof.
  induction l as [|y l IH]; simpl; [reflexivity|].
  destruct (Py.Qltb (key x) (key y)); [|reflexivity].
  rewrite IH. apply perm_swap.
Qed.

Lemma sorted_reverse_perm (l : list A) : Permutation (sorted_reverse key l) l.
Proof.
  induction l as [|x l IH]; simpl; [reflexivity|].
  rewrite insert_desc_perm, IH. reflexivity.
Qed.

Lemma insert_desc_descending (x : A) (l : list A) :
  descending l → descending (insert_desc key x l).
Proof.
  unfold descending. induction l as [|y l IH]; intros Hl; simpl.
  - repeat constructor.
  - apply StronglySorted_inv in Hl as [Hl Hy].
    destruct (Py.Qltb (key x) (key y)) eqn:E.
    + apply PyFacts.Qltb_true in E.
      constructor; [apply IH, Hl|].
      rewrite (insert_desc_perm x l). constructor; [lra|exact Hy].
    + apply PyFacts.Qltb_false in E.
      constructor; [constructor; assumption|].
      constructor; [exact E|].
      eapply Forall_impl; [exact Hy|]. intros z Hz. simpl in Hz. lra.
Qed.

Lemma sorted_reverse_descending (l : list A) : descending (sorted_reverse key l).
Proof.
  induction l as [|x l IH]; simpl.
  - constructor.
  - apply insert_desc_descending, IH.
Qed.

(** Stability: the elements of each key keep their input order. *)
Lemma insert_desc_stable (v : Q) (x : A) (l : list A) :
  List.filter (fun a => Qeq_bool (key a) v) (insert_desc key x l)
  = List.filter (fun a => Qeq_bool (key a) v) (x :: l).
Proof.
  induction l as [|y l IH]; [reflexivity|].
  cbn [insert_desc]. destruct (Py.Qltb (key x) (key y)) eqn:E; [|reflexivity].
  apply PyFacts.Qltb_true in E.
  cbn [List.filter] in *. rewrite IH.
  destruct (Qeq_bool (key y) v) eqn:Ey; destruct (Qeq_bool (key x) v) eqn:Ex;
    try reflexivity.
  apply Qeq_bool_iff in Ey, Ex. lra.
Qed.

Lemma sorted_reverse_stable (v : Q) (l : list A) :
  List.filter (fun a => Qeq_bool (key a) v) (sorted_reverse key l)
  = List.filter (fun a => Qeq_bool (key a) v) l.
Proof.
  induction l as [|x l IH]; [reflexivity|].
  cbn [sorted_reverse]. rewrite insert_desc_stable. cbn [List.filter].
  rewrite IH. reflexivity.
Qed.

Lemma descending_sublist (l k : list A) :
  l `sublist_of` k → descending k → descending l.
Proof.
  unfold descending. induction 1 as [|x l k Hsub IH|x l k Hsub IH]; intros Hk.
  - constructor.
  - apply StronglySorted_inv in Hk as [Hk Hx].
    constructor; [apply IH, Hk|].
    rewrite Forall_forall in *. intros y Hy. apply Hx.
    eapply elem_of_sublist; eassumption.
  - apply StronglySorted_inv in Hk as [Hk _]. apply IH, Hk.
Qed.

End SortedFacts.

End PySortFacts.

(** ** The cap-based selection *)

Module SelectionFacts.
Import Ranker.

(** How many articles of a list carry a given source. *)
Definition count_source (src : string) (l : list ArticleSummary.t) : nat :=
  length (List.filter (fun a => String.eqb (ArticleSummary.source a) src) l).

(** [source_counts] holds, for every source, the number of selected articles of it
    (a missing key counts as 0). *)
Definition counts_agree (source_counts : gmap string Z)
    (selected : list ArticleSummary.t) : Prop :=
  ∀ src, default 0%Z (source_counts !! src) = Z.of_nat (count_source src selected).

Lemma count_source_snoc (src : string) (l : list ArticleSummary.t)
    (a : ArticleSummary.t) :
  count_source src (l ++ [a])
  = (count_source src l
     + (if String.eqb (ArticleSummary.source a) src then 1 else 0))%nat.
Proof.
  unfold count_source. rewrite List.filter_app, length_app. simpl.
  destruct (String.eqb (ArticleSummary.source a) src); reflexivity.
Qed.

Lemma counts_agree_touch (source_counts : gmap string Z)
    (selected : list ArticleSummary.t) (src : string) :
  counts_agree source_counts selected →
  counts_agree (<[src := default 0%Z (source_counts !! src)]> source_counts) selected.
Proof.
  intros Hagree s. destruct (decide (src = s)) as [<-|Hne].
  - rewrite lookup_insert_eq. simpl. apply Hagree.
  - rewrite lookup_insert_ne by exact Hne. apply Hagree.
Qed.

Lemma counts_agree_admit (source_counts : gmap string Z)
    (selected : list ArticleSummary.t) (a : ArticleSummary.t) (count : Z) :
  counts_agree source_counts selected →
  count = default 0%Z (source_counts !! ArticleSummary.source a) →
  counts_agree (<[ArticleSummary.source a := (count + 1)%Z]> source_counts)
               (selected ++ [a]).
Proof.
  intros Hagree -> s. rewrite count_source_snoc.
  destruct (decide (ArticleSummary.source a = s)) as [<-|Hne].
  - rewrite lookup_insert_eq, String.eqb_refl. simpl. rewrite Hagree. lia.
  - rewrite lookup_insert_ne by exact Hne.
    apply String.eqb_neq in Hne. rewrite Hne, Hagree. lia.
Qed.

(** The loop of [ensure_source_diversity], from any state that respects the cap:
    the result extends [selected] by a subsequence of the candidates, is no longer
    than [n] (or than [selected] already was), and respects the cap. *)
Lemma diversity_loop_capped (n m : Z) (todo : list ArticleSummary.t) :
  ∀ (source_counts : gmap string Z) (selected : list ArticleSummary.t),
    counts_agree source_counts selected →
    (∀ src, (Z.of_nat (count_source src selected) <= m)%Z) →
    (∃ admitted,
        diversity_loop n m todo source_counts selected = (selected ++ admitted)%list
        ∧ admitted `sublist_of` todo)
    ∧ (Z.of_nat (length (diversity_loop n m todo source_counts selected))
       <= Z.max n (Z.of_nat (length selected)))%Z
    ∧ (∀ src,
         (Z.of_nat (count_source src (diversity_loop n m todo source_counts selected))
          <= m)%Z).
Proof.
  induction todo as [|a rest IH]; intros counts selected Hagree Hcap.
  - simpl. split; [|split; [lia|exact Hcap]].
    exists []. rewrite app_nil_r. split; [reflexivity|constructor].
  - cbn [diversity_loop]. cbv zeta.
    destruct (n <=? Z.of_nat (length selected))%Z eqn:Hn.
    + split; [|split; [lia|exact Hcap]].
      exists []. rewrite app_nil_r. split; [reflexivity|apply sublist_nil_l].
    + apply Z.leb_gt in Hn.
      set (src := ArticleSummary.source a).
      set (count := default 0%Z (counts !! src)).
      pose proof (counts_agree_touch counts selected src Hagree) as Htouch.
      fold count in Htouch.
      destruct (count <? m)%Z eqn:Hcount.
      * apply Z.ltb_lt in Hcount.
        assert (Hagree' : counts_agree (<[src := (count + 1)%Z]> (<[src := count]> counts))
                                       (selected ++ [a])).
        { apply counts_agree_admit; [exact Htouch|].
          fold src. rewrite lookup_insert_eq. reflexivity. }
        assert (Hcap' : ∀ s, (Z.of_nat (count_source s (selected ++ [a])) <= m)%Z).
        { intros s. rewrite count_source_snoc. fold src.
          destruct (String.eqb src s) eqn:Es.
          - apply String.eqb_eq in Es. subst s.
            specialize (Hagree src). fold count in Hagree. lia.
          - specialize (Hcap s). lia. }
        destruct (IH _ _ Hagree' Hcap') as [[admitted [Hres Hsub]] [Hlen Hcnt]].
        split; [|split; [|exact Hcnt]].
        -- exists (a :: admitted). rewrite Hres, <- app_assoc.
           split; [reflexivity|apply sublist_skip, Hsub].
        -- rewrite length_app in Hlen. simpl in Hlen. lia.
      * destruct (IH _ _ Htouch Hcap) as [[admitted [Hres Hsub]] [Hlen Hcnt]].
        split; [|split; [exact Hlen|exact Hcnt]].
        exists admitted. split; [exact Hres|apply sublist_cons, Hsub].
Qed.

(** The selection loop of [run] is the loop of [ensure_source_diversity] with
    [max_per_source = 2]: a plain dict read with [get(source, 0)] and a
    [defaultdict(int)] count alike. *)
Lemma top_articles_loop_diversity (top_n : Z) (summaries : list ArticleSummary.t) :
  ∀ (counts counts' : gmap string Z) (selected : list ArticleSummary.t),
    (∀ src, default 0%Z (counts !! src) = default 0%Z (counts' !! src)) →
    Agent.top_articles_loop top_n summaries counts selected
    = diversity_loop top_n 2 summaries counts' selected.
Proof.
  induction summaries as [|a rest IH]; intros counts counts' selected Hsame.
  - reflexivity.
  - cbn [Agent.top_articles_loop diversity_loop]. cbv zeta.
    destruct (top_n <=? Z.of_nat (length selected))%Z; [reflexivity|].
    rewrite (Hsame (ArticleSummary.source a)).
    set (src := ArticleSummary.source a).
    set (count := default 0%Z (counts' !! src)).
    assert (Htouch : ∀ s, default 0%Z (counts !! s)
                          = default 0%Z (<[src := count]> counts' !! s)).
    { intros s. destruct (decide (src = s)) as [<-|Hne].
      - rewrite lookup_insert_eq. apply Hsame.
      - rewrite lookup_insert_ne by exact Hne. apply Hsame. }
    destruct (count <? 2)%Z.
    + apply IH. intros s. destruct (decide (src = s)) as [<-|Hne].
      * rewrite !lookup_insert_eq. reflexivity.
      * rewrite !lookup_insert_ne by exact Hne. apply Hsame.
    + apply IH. exact Htouch.
Qed.

(** What the cap-based selection promises of a [selection] made from a [pool] for a
    requested number [n]: at most [n] articles, at most 2 of any source, taken in
    order from the pool sorted by importance (descending), hence itself descending
    in importance. *)
Definition capped (n : Z) (pool selection : list ArticleSummary.t) : Prop :=
  (Z.of_nat (length selection) <= n)%Z
  ∧ (∀ src, (count_source src selection <= 2)%nat)
  ∧ selection `sublist_of` PySort.sorted_reverse ArticleSummary.importance_score pool
  ∧ PySortFacts.descending ArticleSummary.importance_score selection.

Lemma diversity_loop_from_empty (n : Z) (pool : list ArticleSummary.t) :
  (0 <= n)%Z →
  capped n pool
    (diversity_loop n 2 (PySort.sorted_reverse ArticleSummary.importance_score pool) ∅ []).
Proof.
  intros Hn.
  destruct (diversity_loop_capped n 2
              (PySort.sorted_reverse ArticleSummary.importance_score pool) ∅ [])
    as [[admitted [Hres Hsub]] [Hlen Hcnt]].
  { intros src. rewrite lookup_empty. reflexivity. }
  { intros src. unfold count_source. simpl. lia. }
  simpl in Hres, Hlen.
  assert (Hsublist : diversity_loop n 2
            (PySort.sorted_reverse ArticleSummary.importance_score pool) ∅ []
            `sublist_of` PySort.sorted_reverse ArticleSummary.importance_score pool).
  { rewrite Hres. exact Hsub. }
  split; [lia|]. split; [intros src; specialize (Hcnt src); lia|].
  split; [exact Hsublist|].
  eapply PySortFacts.descending_sublist; [exact Hsublist|].
  apply PySortFacts.sorted_reverse_descending.
Qed.

Section Run.

Variable now : Z.
Variable today : string.
Variable datetime_str : Z → string.

(** The summaries that [run] builds: of the articles of the last 7 days, without
    repeated urls, the first 100. *)
Definition enriched (raw_articles : list RawArticle.t) : list ArticleSummary.t :=
  map (Agent.summarize datetime_str)
      (take 100 (Fetcher.deduplicate (Fetcher.filter_today_articles now raw_articles 7))).

(** C1.  For every [n >= 0], [ensure_source_diversity] with [max_per_source = 2]
    and the selection loop of [run] return at most [n] articles, at most 2 of any
    source, admitted in descending order of importance: the result is a subsequence
    of the candidates sorted by importance, however the importance is distributed
    among the sources. *)
Theorem cap_selection_bounds (n : Z) (summaries : list ArticleSummary.t)
    (raw_articles : list RawArticle.t) :
  (0 <= n)%Z →
  capped n summaries (ensure_source_diversity summaries n 2)
  ∧ capped n (enriched raw_articles)
      (DailySummary.articles (fst (Agent.run now today datetime_str n raw_articles))).
Proof.
  intros Hn. split.
  - unfold ensure_source_diversity. cbv zeta. apply diversity_loop_from_empty, Hn.
  - unfold Agent.run, enriched. cbv zeta.
    destruct (Fetcher.deduplicate (Fetcher.filter_today_articles now raw_articles 7))
      as [|x l] eqn:Hfiltered.
    + unfold capped. cbn. split; [lia|].
      split; [intros src; unfold count_source; simpl; lia|].
      split; constructor.
    + cbn [Py.nonempty negb fst DailySummary.articles].
      rewrite (top_articles_loop_diversity n _ ∅ ∅ []) by reflexivity.
      apply diversity_loop_from_empty, Hn.
Qed.

End Run.

Definition verge (title : string) (importance : Q) : ArticleSummary.t :=
  ArticleSummary.mk title title "The Verge" "2024-01-01 00:00:00" "" [] importance "Tech".

Definition wired (title : string) (importance : Q) : ArticleSummary.t :=
  ArticleSummary.mk title title "Wired" "2024-01-01 00:00:00" "" [] importance "Tech".

Definition raw (title url source : string) : RawArticle.t :=
  RawArticle.mk title url source 0 "" "" [].

Lemma cap_selection_bounds_witness :
  capped 3 [verge "v1" 7; wired "w1" 5; verge "v2" 9; verge "v3" 8.5; verge "v4" 8]
         (ensure_source_diversity
            [verge "v1" 7; wired "w1" 5; verge "v2" 9; verge "v3" 8.5; verge "v4" 8] 3 2)
  ∧ capped 3
      (enriched 0 (fun _ => "1970-01-01 00:00:00")
         [raw "Apple announces new AI chip" "u1" "The Verge"; raw "Happy days" "u2" "Wired"])
      (DailySummary.articles
         (fst (Agent.run 0 "January 01, 1970" (fun _ => "1970-01-01 00:00:00") 3
                 [raw "Apple announces new AI chip" "u1" "The Verge";
                  raw "Happy days" "u2" "Wired"]))).
Proof.
  apply (cap_selection_bounds 0 "January 01, 1970" (fun _ => "1970-01-01 00:00:00") 3).
  lia.
Defined.

(** One source holds the four most important candidates: two of them are admitted,
    then the best of another source. *)
Example one_source_dominates :
  ensure_source_diversity
    [verge "v1" 7; wired "w1" 5; verge "v2" 9; verge "v3" 8.5; verge "v4" 8] 3 2
  = [verge "v2" 9; verge "v3" 8.5; wired "w1" 5].
Proof. vm_compute. reflexivity. Qed.

End SelectionFacts.

(** ** The orchestrator: the empty result *)

Module AgentFacts.

Section Run.

Variable now : Z.
Variable today : string.
Variable datetime_str : Z → string.

(** C7.  When no article is left after the 7-day filter and the deduplication,
    [run] returns a [DailySummary] with no article, [total_parsed = 0], no source
    used and [total_fetched] the number of raw articles fetched.  The progress
    messages stop after the filtering: neither the enrichment nor the selection is
    announced or run. *)
Theorem run_nothing_left (top_n : Z) (raw_articles : list RawArticle.t) :
  Fetcher.deduplicate (Fetcher.filter_today_articles now raw_articles 7) = [] →
  let result := fst (Agent.run now today datetime_str top_n raw_articles) in
  let messages := snd (Agent.run now today datetime_str top_n raw_articles) in
  DailySummary.articles result = []
  ∧ DailySummary.total_parsed result = 0%nat
  ∧ DailySummary.sources_used result = []
  ∧ DailySummary.total_fetched result = length raw_articles
  ∧ DailySummary.date result = today
  ∧ messages
    = ["Fetching RSS feeds from tech sources...";
       "Found " +:+ pretty (length raw_articles) +:+ " articles from all sources";
       "Filtered to 0 recent articles"]
  ∧ "Processing articles..." ∉ messages.
Proof.
  intros Hnone result messages. unfold result, messages, Agent.run. cbv zeta.
  rewrite Hnone. cbn [Py.nonempty negb fst snd length app].
  repeat (split; [reflexivity|]).
  intros Hin. repeat (apply elem_of_cons in Hin as [Hin|Hin]; [|]).
  - discriminate.
  - assert (Hhead : String.get 1 "Processing articles..."
                    = String.get 1 ("Found " +:+ pretty (length raw_articles)
                                    +:+ " articles from all sources"))
      by (rewrite <- Hin; reflexivity).
    discriminate.
  - discriminate.
  - inversion Hin.
Qed.

End Run.

(** One article, 30 days old: it is fetched and filtered out. *)
Lemma run_nothing_left_witness :
  DailySummary.articles
    (fst (Agent.run (30 * Fetcher.day) "January 31, 1970" (fun _ => "1970-01-01 00:00:00") 5
            [RawArticle.mk "Old news" "u1" "Wired" 0 "" "" []])) = []
  ∧ DailySummary.total_fetched
      (fst (Agent.run (30 * Fetcher.day) "January 31, 1970" (fun _ => "1970-01-01 00:00:00") 5
              [RawArticle.mk "Old news" "u1" "Wired" 0 "" "" []])) = 1%nat.
Proof.
  pose proof (run_nothing_left (30 * Fetcher.day) "January 31, 1970"
                (fun _ => "1970-01-01 00:00:00") 5
                [RawArticle.mk "Old news" "u1" "Wired" 0 "" "" []] eq_refl) as H.
  cbv zeta in H. destruct H as [Harticles [_ [_ [Hfetched _]]]].
  split; [exact Harticles|exact Hfetched].
Defined.

(** The empty fetch of the spec's scenario. *)
Example run_empty_fetch :
  Agent.run 0 "January 01, 1970" (fun _ => "1970-01-01 00:00:00") 5 []
  = (DailySummary.mk "January 01, 1970" [] 0 0 [],
     ["Fetching RSS feeds from tech sources..."; "Found 0 articles from all sources";
      "Filtered to 0 recent articles"]).
Proof. vm_compute. reflexivity. Qed.

(** An article published exactly 7 days ago is still inside the window. *)
Example filter_window_boundary :
  Fetcher.filter_today_articles (7 * Fetcher.day)
    [RawArticle.mk "edge" "u1" "Wired" 0 "" "" [];
     RawArticle.mk "late" "u2" "Wired" (-1) "" "" []] 7
  = [RawArticle.mk "edge" "u1" "Wired" 0 "" "" []].
Proof. reflexivity. Qed.

End AgentFacts.

(** ** More on the ranker: ranges, monotonicity, [rank], the size of a selection *)

Module RankerProps.
Import Ranker.

(** Case analysis on a [max] of the code. *)
Ltac case_max :=
  match goal with
  | |- context [Py.max ?a ?b] =>
      let E := fresh "Hmax" in
      unfold Py.max at 1; destruct (Py.Qltb a b) eqn:E;
      [apply PyFacts.Qltb_true in E|apply PyFacts.Qltb_false in E]
  end.

Ltac lra_div24 := unfold Qdiv in *; change (/ 24)%Q with (1 # 24)%Q in *; lra.

Lemma recency_of_hours_antitone (h1 h2 : Q) :
  (h1 <= h2)%Q → (recency_of_hours h2 <= recency_of_hours h1)%Q.
Proof.
  intros Hle. unfold recency_of_hours.
  repeat RankerFacts.case_le; try lra; repeat case_max; lra_div24.
Qed.

Lemma hours_ago_antitone (now d1 d2 : Z) :
  (d1 <= d2)%Z → (hours_ago now d2 <= hours_ago now d1)%Q.
Proof.
  intros Hle. unfold hours_ago.
  assert (H : (inject_Z (now - d2) <= inject_Z (now - d1))%Q)
    by (rewrite <- Zle_Qle; lia).
  unfold Qdiv. change (/ 1000000)%Q with (1 # 1000000)%Q.
  change (/ 3600)%Q with (1 # 3600)%Q. lra.
Qed.

Section Scores.

Variable now : Z.
Variable strptime : string → string → option Z.

Lemma recency_at_most_ten (published : published_value) :
  (calculate_recency_score now strptime published <= 10)%Q.
Proof.
  unfold calculate_recency_score.
  destruct (match published with
            | PubStr s => try_formats strptime (String.substring 0 19 s) formats
            | PubDatetime d => Some d
            end).
  - apply RankerFacts.recency_of_hours_at_most_ten.
  - lra.
Qed.

(** X1.  The recency score always lies between 1 and 10, for a [datetime], for a
    string that parses and for one that does not. *)
Theorem recency_range (published : published_value) :
  (1 <= calculate_recency_score now strptime published <= 10)%Q.
Proof.
  split.
  - apply RankerFacts.recency_at_least_one.
  - apply recency_at_most_ten.
Qed.

(** X2.  Of two publication instants read off two [published] values, the later one
    never gets the lower recency score. *)
Theorem recency_later_not_lower (p1 p2 : published_value) (d1 d2 : Z) :
  RankerFacts.reads_as strptime p1 d1 →
  RankerFacts.reads_as strptime p2 d2 →
  (d1 <= d2)%Z →
  (calculate_recency_score now strptime p1 <= calculate_recency_score now strptime p2)%Q.
Proof.
  intros H1 H2 Hle.
  rewrite (RankerFacts.recency_of_reads now strptime p1 d1 H1).
  rewrite (RankerFacts.recency_of_reads now strptime p2 d2 H2).
  apply recency_of_hours_antitone, hours_ago_antitone, Hle.
Qed.

End Scores.

Lemma recency_later_not_lower_witness :
  (calculate_recency_score (30 * 3600 * 1000000) RankerFacts.no_parse (PubDatetime 0)
   <= calculate_recency_score (30 * 3600 * 1000000) RankerFacts.no_parse
        (PubDatetime (29 * 3600 * 1000000)))%Q.
Proof.
  apply (recency_later_not_lower (30 * 3600 * 1000000) RankerFacts.no_parse
           (PubDatetime 0) (PubDatetime (29 * 3600 * 1000000))
           0 (29 * 3600 * 1000000)).
  - reflexivity.
  - reflexivity.
  - lia.
Defined.


(** *** The diversity penalty in closed form *)

(** How many of the selected articles share the source, resp. the category. *)
Definition same_source (article : ArticleSummary.t) (selected : list ArticleSummary.t)
    : nat :=
  length (List.filter
            (fun sel => String.eqb (ArticleSummary.source article)
                                   (ArticleSummary.source sel)) selected).

Definition same_category (article : ArticleSummary.t) (selected : list ArticleSummary.t)
    : nat :=
  length (List.filter
            (fun sel => String.eqb (ArticleSummary.category article)
                                   (ArticleSummary.category sel)) selected).

Definition Qnat (n : nat) : Q := inject_Z (Z.of_nat n).

Lemma Qnat_succ (n : nat) : (Qnat (S n) == Qnat n + 1)%Q.
Proof.
  unfold Qnat. rewrite Nat2Z.inj_succ, <- Z.add_1_r, inject_Z_plus. reflexivity.
Qed.

Lemma Qnat_nonneg (n : nat) : (0 <= Qnat n)%Q.
Proof. unfold Qnat. change 0%Q with (inject_Z 0). rewrite <- Zle_Qle. lia. Qed.

Lemma penalty_fold (article : ArticleSummary.t) (selected : list ArticleSummary.t)
    (start : Q) :
  (fold_left (penalty_step article) selected start
   == start + 2 * Qnat (same_source article selected)
      + Qnat (same_category article selected))%Q.
Proof.
  revert start. induction selected as [|sel rest IH]; intros start.
  - unfold same_source, same_category. cbn [List.filter length fold_left].
    change (Qnat 0) with 0%Q. lra.
  - cbn [fold_left]. rewrite IH. unfold penalty_step, same_source, same_category.
    cbn [List.filter].
    destruct (String.eqb (ArticleSummary.source article) (ArticleSummary.source sel));
      destruct (String.eqb (ArticleSummary.category article)
                           (ArticleSummary.category sel));
      cbn [length]; rewrite ?Qnat_succ; lra.
Qed.

(** X3.  The diversity penalty is twice the number of selected articles of the same
    source plus the number of selected articles of the same category; an article
    that shares both counts 3. *)
Theorem diversity_penalty_counts (article : ArticleSummary.t)
    (selected : list ArticleSummary.t) :
  (calculate_diversity_penalty article selected
   == 2 * Qnat (same_source article selected) + Qnat (same_category article selected))%Q.
Proof.
  unfold calculate_diversity_penalty. rewrite penalty_fold. lra.
Qed.

Lemma penalty_grows (article : ArticleSummary.t) (selected more : list ArticleSummary.t) :
  (calculate_diversity_penalty article selected
   <= calculate_diversity_penalty article (selected ++ more))%Q.
Proof.
  unfold calculate_diversity_penalty. rewrite fold_left_app.
  rewrite (penalty_fold article more).
  pose proof (Qnat_nonneg (same_source article more)).
  pose proof (Qnat_nonneg (same_category article more)). lra.
Qed.

Lemma max_monotone (a x y : Q) : (x <= y)%Q → (Py.max a x <= Py.max a y)%Q.
Proof. intros Hxy. repeat case_max; lra. Qed.

Section FinalScore.

Variable now : Z.
Variable strptime : string → string → option Z.

(** X4.  With a diversity weight that is not negative, selecting more articles
    never raises the final score of a candidate. *)
Theorem final_score_never_raised (self : ArticleRanker) (article : ArticleSummary.t)
    (selected more : list ArticleSummary.t) :
  (0 <= diversity_weight self)%Q →
  (calculate_final_score now strptime self article (selected ++ more)
   <= calculate_final_score now strptime self article selected)%Q.
Proof.
  intros Hw. unfold calculate_final_score. cbv zeta.
  apply max_monotone.
  pose proof (penalty_grows article selected more) as Hpen.
  set (p1 := calculate_diversity_penalty article selected) in *.
  set (p2 := calculate_diversity_penalty article (selected ++ more)) in *.
  assert (diversity_weight self * p1 <= diversity_weight self * p2)%Q
    by nra.
  lra.
Qed.

(** X5.  With the default weights and an importance between 0 and 10, the final
    score lies between 0 and 8, whatever has been selected; before any selection it
    is at least 0.2. *)
Theorem final_score_range (article : ArticleSummary.t) (selected : list ArticleSummary.t) :
  (0 <= ArticleSummary.importance_score article)%Q →
  (ArticleSummary.importance_score article <= 10)%Q →
  (0 <= calculate_final_score now strptime default_ranker article selected <= 8)%Q
  ∧ (0.2 <= calculate_final_score now strptime default_ranker article [])%Q.
Proof.
  intros Hlow Hhigh.
  pose proof (RankerFacts.recency_at_least_one now strptime
                (PubStr (ArticleSummary.published article))) as Hr1.
  pose proof (recency_at_most_ten now strptime
                (PubStr (ArticleSummary.published article))) as Hr10.
  pose proof (penalty_fold article selected 0.0%Q) as Hpen.
  fold (calculate_diversity_penalty article selected) in Hpen.
  pose proof (Qnat_nonneg (same_source article selected)).
  pose proof (Qnat_nonneg (same_category article selected)).
  unfold calculate_final_score. cbv zeta.
  change (calculate_diversity_penalty article []) with 0.0%Q.
  cbn [recency_weight importance_weight diversity_weight default_ranker].
  set (r := calculate_recency_score now strptime _) in *.
  set (p := calculate_diversity_penalty article selected) in *.
  repeat split; repeat case_max; lra.
Qed.

End FinalScore.

Lemma final_score_never_raised_witness :
  (calculate_final_score 0 RankerFacts.no_parse default_ranker RankerFacts.article_b
     ([RankerFacts.article_a] ++ [RankerFacts.article_c])
   <= calculate_final_score 0 RankerFacts.no_parse default_ranker RankerFacts.article_b
        [RankerFacts.article_a])%Q.
Proof.
  apply (final_score_never_raised 0 RankerFacts.no_parse default_ranker).
  simpl. lra.
Defined.

Lemma final_score_range_witness :
  (0 <= calculate_final_score 0 RankerFacts.no_parse default_ranker RankerFacts.article_b
          [RankerFacts.article_a] <= 8)%Q.
Proof.
  apply (final_score_range 0 RankerFacts.no_parse RankerFacts.article_b
           [RankerFacts.article_a]); simpl; lra.
Defined.


(** *** [rank] *)

Section RankBy.

(** The scores that [rank] sorts by: any function, as in [RankAll.rank_by]. *)
Variable score : ArticleSummary.t → Q.

(** Every pair of the list carries the score of its article. *)
Definition well_scored (pairs : list (ArticleSummary.t * Q)) : Prop :=
  Forall (fun p => snd p = score (fst p)) pairs.

Lemma scored_well_scored (summaries : list ArticleSummary.t) :
  well_scored (RankAll.scored_by score summaries).
Proof.
  unfold well_scored, RankAll.scored_by. apply Forall_forall. intros p Hp.
  apply list_elem_of_fmap in Hp as [a [-> _]]. reflexivity.
Qed.

Lemma scored_articles (summaries : list ArticleSummary.t) :
  map fst (RankAll.scored_by score summaries) = summaries.
Proof.
  unfold RankAll.scored_by. induction summaries as [|a l IH]; simpl; [reflexivity|].
  f_equal. exact IH.
Qed.

Lemma descending_articles (pairs : list (ArticleSummary.t * Q)) :
  well_scored pairs →
  PySortFacts.descending snd pairs →
  PySortFacts.descending score (map fst pairs).
Proof.
  unfold PySortFacts.descending, well_scored.
  intros Hw Hs. induction Hs as [|p ps Hs IH Hp]; simpl.
  - constructor.
  - apply Forall_cons in Hw as [Hp0 Hw].
    constructor; [apply IH, Hw|].
    apply Forall_forall. intros a Ha.
    apply list_elem_of_fmap in Ha as [q [-> Hq]].
    rewrite Forall_forall in Hp, Hw.
    rewrite <- Hp0, <- (Hw q Hq). apply Hp, Hq.
Qed.

Lemma filter_articles (v : Q) (pairs : list (ArticleSummary.t * Q)) :
  well_scored pairs →
  List.filter (fun a => Qeq_bool (score a) v) (map fst pairs)
  = map fst (List.filter (fun p => Qeq_bool (snd p) v) pairs).
Proof.
  unfold well_scored. induction pairs as [|p ps IH]; intros Hw; [reflexivity|].
  apply Forall_cons in Hw as [Hp Hw]. cbn [map List.filter].
  rewrite <- Hp. destruct (Qeq_bool (snd p) v); cbn [map]; rewrite (IH Hw); reflexivity.
Qed.

(** X6.  Whatever scores [calculate_final_score] returns for the articles, [rank]
    returns a permutation of its input in which no article has a higher score than
    an article before it, and the articles that were given one same score keep
    their input order. *)
Theorem rank_sorts (summaries : list ArticleSummary.t) :
  Permutation (RankAll.rank_by score summaries) summaries
  ∧ PySortFacts.descending score (RankAll.rank_by score summaries)
  ∧ ∀ v : Q,
      List.filter (fun a => Qeq_bool (score a) v) (RankAll.rank_by score summaries)
      = List.filter (fun a => Qeq_bool (score a) v) summaries.
Proof.
  unfold RankAll.rank_by.
  pose proof (PySortFacts.sorted_reverse_perm snd
                (RankAll.scored_by score summaries)) as Hperm.
  assert (Hw : well_scored
                 (PySort.sorted_reverse snd (RankAll.scored_by score summaries))).
  { unfold well_scored. rewrite Hperm. apply scored_well_scored. }
  split; [|split].
  - rewrite <- (scored_articles summaries) at 2.
    apply Permutation_map, Hperm.
  - apply descending_articles; [exact Hw|].
    apply PySortFacts.sorted_reverse_descending.
  - intros v. rewrite (filter_articles v _ Hw).
    rewrite PySortFacts.sorted_reverse_stable.
    rewrite <- (filter_articles v _ (scored_well_scored summaries)).
    rewrite scored_articles. reflexivity.
Qed.

End RankBy.

Section Rank.

Variable now : Z.
Variable strptime : string → string → option Z.
Variable self : ArticleRanker.

(** The final score of an article before any selection. *)
Definition initial_score (article : ArticleSummary.t) : Q :=
  calculate_final_score now strptime self article [].

(** *** The size and the content of a greedy selection *)

Lemma greedy_extends (k : nat) :
  ∀ selected pool : list ArticleSummary.t,
    ∃ picked rest : list ArticleSummary.t,
      RankerFacts.greedy (calculate_final_score now strptime self) k selected pool = (selected ++ picked)%list
      ∧ Permutation (picked ++ rest) pool
      ∧ length picked = Nat.min k (length pool).
Proof.
  induction k as [|k IH]; intros selected pool.
  - exists [], pool. simpl. rewrite app_nil_r. repeat split; reflexivity.
  - destruct pool as [|x l].
    + exists [], []. simpl. rewrite app_nil_r. repeat split; reflexivity.
    + set (pool := x :: l).
      set (i := RankerFacts.argmax_first
                  (map (RankerFacts.score_against (calculate_final_score now strptime self) selected) pool)).
      assert (Hi : (i < length pool)%nat).
      { unfold i.
        rewrite <- (length_map (RankerFacts.score_against (calculate_final_score now strptime self) selected) pool).
        apply RankerFacts.argmax_first_bound. discriminate. }
      destruct (lookup_lt_is_Some_2 pool i Hi) as [best Hbest].
      destruct (IH (selected ++ [best])%list (delete i pool))
        as [picked [rest [Hres [Hperm Hlen]]]].
      exists (best :: picked), rest.
      assert (Hstep : RankerFacts.greedy (calculate_final_score now strptime self) (S k) selected pool
                      = RankerFacts.greedy (calculate_final_score now strptime self) k (selected ++ [best])
                          (delete i pool)).
      { unfold pool at 1. cbn [RankerFacts.greedy]. fold pool. fold i.
        rewrite Hbest. reflexivity. }
      rewrite Hstep, Hres, <- app_assoc. split; [reflexivity|]. split.
      * cbn [app]. rewrite Hperm. symmetry. apply delete_Permutation, Hbest.
      * cbn [length]. rewrite Hlen.
        rewrite length_delete by (exists best; exact Hbest).
        unfold pool in *. cbn [length] in *. lia.
Qed.

(** X7.  For [0 <= n < len(summaries)], [get_top_n] returns, without raising,
    exactly [n] articles, and they are taken from the input: together with the
    articles left out they are a permutation of it. *)
Theorem get_top_n_selects_n (summaries : list ArticleSummary.t) (n : Z) :
  (0 <= n < Z.of_nat (length summaries))%Z →
  ∃ result rest : list ArticleSummary.t,
    get_top_n now strptime self summaries n = Returns result
    ∧ Z.of_nat (length result) = n
    ∧ Permutation (result ++ rest) summaries.
Proof.
  intros [Hn Hlen]. unfold get_top_n, get_top_n_by.
  apply Z.leb_gt in Hlen as Hguard. rewrite Hguard.
  rewrite (RankerFacts.select_loop_greedy _ (RankerFacts.final_score_nonneg now strptime self))
    by lia.
  cbn [length]. rewrite Z.sub_0_r.
  destruct (greedy_extends (Z.to_nat n) [] summaries) as [picked [rest [Hres [Hperm Hsize]]]].
  exists picked, rest. rewrite Hres. split; [reflexivity|].
  split; [lia|exact Hperm].
Qed.

(** X8.  For [0 < n < len(summaries)], the first article that [get_top_n] returns
    is an article of the input whose initial score no article of the input exceeds. *)
Theorem get_top_n_best_first (summaries : list ArticleSummary.t) (n : Z) :
  (0 < n < Z.of_nat (length summaries))%Z →
  ∃ (best : ArticleSummary.t) (others : list ArticleSummary.t),
    get_top_n now strptime self summaries n = Returns (best :: others)
    ∧ best ∈ summaries
    ∧ ∀ a, a ∈ summaries → (initial_score a <= initial_score best)%Q.
Proof.
  intros [Hn Hlen]. unfold get_top_n, get_top_n_by.
  apply Z.leb_gt in Hlen as Hguard. rewrite Hguard.
  rewrite (RankerFacts.select_loop_greedy _ (RankerFacts.final_score_nonneg now strptime self))
    by lia.
  cbn [length]. rewrite Z.sub_0_r.
  destruct (Z.to_nat n) as [|k] eqn:Hk; [lia|].
  destruct summaries as [|x l]; [simpl in Hlen; lia|].
  set (pool := x :: l) in *.
  set (scores := map (RankerFacts.score_against (calculate_final_score now strptime self) []) pool).
  assert (Hne : scores ≠ []) by discriminate.
  destruct (RankerFacts.argmax_first_highest scores Hne) as [top [Htop [Hmax _]]].
  assert (Htop' : RankerFacts.score_against (calculate_final_score now strptime self) []
                     <$> pool !! RankerFacts.argmax_first scores = Some top)
    by (rewrite <- list_lookup_fmap; exact Htop).
  clear Htop. rename Htop' into Htop.
  destruct (pool !! RankerFacts.argmax_first scores) as [best|] eqn:Hbest;
    [|discriminate].
  cbn in Htop. injection Htop as Htop.
  destruct (greedy_extends k ([] ++ [best])%list
              (delete (RankerFacts.argmax_first scores) pool))
    as [picked [rest [Hres _]]].
  exists best, picked. split; [|split].
  - f_equal. unfold pool at 1. cbn [RankerFacts.greedy]. fold pool. fold scores.
    rewrite Hbest. exact Hres.
  - apply list_elem_of_lookup. exists (RankerFacts.argmax_first scores). exact Hbest.
  - intros a Ha. apply list_elem_of_lookup in Ha as [j Hj].
    unfold initial_score. fold (RankerFacts.score_against (calculate_final_score now strptime self) [] best).
    rewrite Htop.
    apply (Hmax j). unfold scores. rewrite list_lookup_fmap, Hj. reflexivity.
Qed.

End Rank.

Lemma get_top_n_selects_n_witness :
  ∃ result rest : list ArticleSummary.t,
    get_top_n 0 RankerFacts.no_parse default_ranker
      [RankerFacts.article_a; RankerFacts.article_b; RankerFacts.article_c] 2
    = Returns result
    ∧ Z.of_nat (length result) = 2%Z
    ∧ Permutation (result ++ rest)
        [RankerFacts.article_a; RankerFacts.article_b; RankerFacts.article_c].
Proof.
  apply (get_top_n_selects_n 0 RankerFacts.no_parse default_ranker
           [RankerFacts.article_a; RankerFacts.article_b; RankerFacts.article_c] 2).
  simpl. lia.
Defined.

Lemma get_top_n_best_first_witness :
  ∃ (best : ArticleSummary.t) (others : list ArticleSummary.t),
    get_top_n 0 RankerFacts.no_parse default_ranker
      [RankerFacts.article_a; RankerFacts.article_b; RankerFacts.article_c] 2
    = Returns (best :: others)
    ∧ best ∈ [RankerFacts.article_a; RankerFacts.article_b; RankerFacts.article_c]
    ∧ ∀ a, a ∈ [RankerFacts.article_a; RankerFacts.article_b; RankerFacts.article_c] →
           (initial_score 0 RankerFacts.no_parse default_ranker a
            <= initial_score 0 RankerFacts.no_parse default_ranker best)%Q.
Proof.
  apply (get_top_n_best_first 0 RankerFacts.no_parse default_ranker
           [RankerFacts.article_a; RankerFacts.article_b; RankerFacts.article_c] 2).
  simpl. lia.
Defined.

Example rank_three_articles :
  RankAll.rank 0 RankerFacts.no_parse default_ranker
    [RankerFacts.article_a; RankerFacts.article_b; RankerFacts.article_c]
  = [RankerFacts.article_b; RankerFacts.article_c; RankerFacts.article_a].
Proof. vm_compute. reflexivity. Qed.

End RankerProps.

(** ** More on the cap-based selection: any cap, the empty results, saturation *)

Module SelectionProps.
Import Ranker SelectionFacts.

Lemma diversity_loop_closed_cap (n m : Z) (todo : list ArticleSummary.t) :
  (m <= 0)%Z →
  ∀ (source_counts : gmap string Z) (selected : list ArticleSummary.t),
    counts_agree source_counts selected →
    diversity_loop n m todo source_counts selected = selected.
Proof.
  intros Hm. induction todo as [|a rest IH]; intros counts selected Hagree.
  - reflexivity.
  - cbn [diversity_loop]. cbv zeta.
    destruct (n <=? Z.of_nat (length selected))%Z; [reflexivity|].
    pose proof (Hagree (ArticleSummary.source a)) as Hcount.
    destruct (default 0%Z (counts !! ArticleSummary.source a) <? m)%Z eqn:E.
    + apply Z.ltb_lt in E. lia.
    + apply IH, counts_agree_touch, Hagree.
Qed.

Lemma diversity_loop_no_room (n m : Z) (todo : list ArticleSummary.t)
    (source_counts : gmap string Z) (selected : list ArticleSummary.t) :
  (n <= Z.of_nat (length selected))%Z →
  diversity_loop n m todo source_counts selected = selected.
Proof.
  intros Hn. destruct todo as [|a rest]; [reflexivity|].
  cbn [diversity_loop]. apply Z.leb_le in Hn. rewrite Hn. reflexivity.
Qed.

Lemma counts_agree_empty : counts_agree ∅ [].
Proof. intros src. rewrite lookup_empty. reflexivity. Qed.

(** X9.  For every [n] and every [max_per_source], [ensure_source_diversity]
    returns at most [max(n, 0)] articles and at most [max(max_per_source, 0)] of any
    source, as a subsequence of the candidates sorted by importance; it returns the
    empty list when [n <= 0] or [max_per_source <= 0]. *)
Theorem ensure_source_diversity_limits (summaries : list ArticleSummary.t)
    (n max_per_source : Z) :
  (Z.of_nat (length (ensure_source_diversity summaries n max_per_source))
   <= Z.max n 0)%Z
  ∧ (∀ src,
       (Z.of_nat (count_source src (ensure_source_diversity summaries n max_per_source))
        <= Z.max max_per_source 0)%Z)
  ∧ ensure_source_diversity summaries n max_per_source
      `sublist_of` PySort.sorted_reverse ArticleSummary.importance_score summaries
  ∧ ((n <= 0)%Z ∨ (max_per_source <= 0)%Z →
     ensure_source_diversity summaries n max_per_source = []).
Proof.
  unfold ensure_source_diversity. cbv zeta.
  set (sorted := PySort.sorted_reverse ArticleSummary.importance_score summaries).
  assert (Hempty : (n <= 0)%Z ∨ (max_per_source <= 0)%Z →
                   diversity_loop n max_per_source sorted ∅ [] = []).
  { intros [Hn|Hm].
    - apply diversity_loop_no_room. simpl. exact Hn.
    - apply diversity_loop_closed_cap; [exact Hm|apply counts_agree_empty]. }
  destruct (Z_le_gt_dec max_per_source 0) as [Hm|Hm].
  - rewrite (Hempty (or_intror Hm)).
    split; [simpl; lia|]. split; [intros src; unfold count_source; simpl; lia|].
    split; [apply sublist_nil_l|reflexivity].
  - destruct (diversity_loop_capped n max_per_source sorted ∅ [] counts_agree_empty)
      as [[admitted [Hres Hsub]] [Hlen Hcnt]].
    { intros src. unfold count_source. simpl. lia. }
    split; [simpl in Hlen; lia|].
    split; [intros src; specialize (Hcnt src); lia|].
    split; [rewrite Hres; exact Hsub|exact Hempty].
Qed.

Lemma count_source_insert (src : string) (x : ArticleSummary.t)
    (l : list ArticleSummary.t) :
  count_source src (PySort.insert_desc ArticleSummary.importance_score x l)
  = count_source src (x :: l).
Proof.
  unfold count_source. induction l as [|y l IH]; [reflexivity|].
  cbn [PySort.insert_desc].
  destruct (Py.Qltb (ArticleSummary.importance_score x)
                    (ArticleSummary.importance_score y)); [|reflexivity].
  cbn [List.filter] in *.
  destruct (String.eqb (ArticleSummary.source y) src);
    destruct (String.eqb (ArticleSummary.source x) src);
    cbn [length] in *; rewrite IH; reflexivity.
Qed.

Lemma count_source_sorted (src : string) (l : list ArticleSummary.t) :
  count_source src (PySort.sorted_reverse ArticleSummary.importance_score l)
  = count_source src l.
Proof.
  induction l as [|x l IH]; [reflexivity|].
  cbn [PySort.sorted_reverse]. rewrite count_source_insert.
  unfold count_source in *. cbn [List.filter].
  destruct (String.eqb (ArticleSummary.source x) src); cbn [length]; rewrite IH;
    reflexivity.
Qed.

Lemma count_source_cons (src : string) (a : ArticleSummary.t)
    (l : list ArticleSummary.t) :
  count_source src (a :: l)
  = ((if String.eqb (ArticleSummary.source a) src then 1 else 0)
     + count_source src l)%nat.
Proof.
  unfold count_source. cbn [List.filter].
  destruct (String.eqb (ArticleSummary.source a) src); reflexivity.
Qed.

(** The loop, when it ends with room left: every source has as many articles in the
    result as the cap allows of those it had in the selection and among the
    candidates. *)
Lemma diversity_loop_saturates (n m : Z) (todo : list ArticleSummary.t) :
  ∀ (source_counts : gmap string Z) (selected : list ArticleSummary.t),
    counts_agree source_counts selected →
    (∀ src, (Z.of_nat (count_source src selected) <= m)%Z) →
    (Z.of_nat (length (diversity_loop n m todo source_counts selected)) < n)%Z →
    ∀ src,
      Z.of_nat (count_source src (diversity_loop n m todo source_counts selected))
      = Z.min m (Z.of_nat (count_source src selected + count_source src todo)).
Proof.
  induction todo as [|a rest IH]; intros counts selected Hagree Hcap Hroom src.
  - simpl. specialize (Hcap src). unfold count_source at 3. simpl. lia.
  - cbn [diversity_loop] in *. cbv zeta in *.
    destruct (n <=? Z.of_nat (length selected))%Z eqn:Hn.
    { apply Z.leb_le in Hn. lia. }
    pose proof (counts_agree_touch counts selected (ArticleSummary.source a) Hagree)
      as Htouch.
    pose proof (Hagree (ArticleSummary.source a)) as Hcount.
    rewrite count_source_cons.
    destruct (default 0%Z (counts !! ArticleSummary.source a) <? m)%Z eqn:Hc.
    + apply Z.ltb_lt in Hc.
      rewrite IH; [| |  |exact Hroom].
      * rewrite count_source_snoc. f_equal. lia.
      * apply counts_agree_admit; [exact Htouch|].
        rewrite lookup_insert_eq. reflexivity.
      * intros s. rewrite count_source_snoc.
        destruct (String.eqb (ArticleSummary.source a) s) eqn:Es.
        -- apply String.eqb_eq in Es. subst s. lia.
        -- specialize (Hcap s). lia.
    + apply Z.ltb_ge in Hc.
      rewrite IH; [|exact Htouch|exact Hcap|exact Hroom].
      destruct (String.eqb (ArticleSummary.source a) src) eqn:Es.
      * apply String.eqb_eq in Es. subst src.
        specialize (Hcap (ArticleSummary.source a)). lia.
      * f_equal.
Qed.

(** X10.  When [ensure_source_diversity] returns fewer than [n] articles, nothing
    more could be admitted: of every source it holds [max_per_source] articles, or
    all the articles the input has of that source when these are fewer. *)
Theorem ensure_source_diversity_saturates (summaries : list ArticleSummary.t)
    (n max_per_source : Z) :
  (0 <= max_per_source)%Z →
  (Z.of_nat (length (ensure_source_diversity summaries n max_per_source)) < n)%Z →
  ∀ src,
    Z.of_nat (count_source src (ensure_source_diversity summaries n max_per_source))
    = Z.min max_per_source (Z.of_nat (count_source src summaries)).
Proof.
  intros Hm Hroom src. unfold ensure_source_diversity in *. cbv zeta in *.
  rewrite (diversity_loop_saturates n max_per_source _ ∅ [] counts_agree_empty);
    [| |exact Hroom].
  - rewrite count_source_sorted. reflexivity.
  - intros s. unfold count_source. simpl. lia.
Qed.

Lemma ensure_source_diversity_saturates_witness :
  Z.of_nat (count_source "The Verge"
              (ensure_source_diversity
                 [verge "v1" 7; wired "w1" 5; verge "v2" 9; verge "v3" 8.5] 5 2))
  = Z.min 2 (Z.of_nat (count_source "The Verge"
                         [verge "v1" 7; wired "w1" 5; verge "v2" 9; verge "v3" 8.5])).
Proof.
  apply (ensure_source_diversity_saturates
           [verge "v1" 7; wired "w1" 5; verge "v2" 9; verge "v3" 8.5] 5 2).
  - lia.
  - vm_compute. reflexivity.
Defined.

Lemma ensure_source_diversity_limits_witness :
  ensure_source_diversity [verge "v1" 7; wired "w1" 5] 5 0 = [].
Proof.
  apply (proj2 (proj2 (proj2 (ensure_source_diversity_limits
                                [verge "v1" 7; wired "w1" 5] 5 0)))).
  right. lia.
Defined.

End SelectionProps.

(** ** More on the fetcher: the window filter, and the filter followed by the
    deduplication *)

Module FetcherProps.
Import Fetcher.

(** The oldest instant that [filter_today_articles] keeps. *)
Definition cutoff (now days : Z) : Z := (now - days * day)%Z.

Lemma filter_window_member (now days : Z) (articles : list RawArticle.t)
    (a : RawArticle.t) :
  a ∈ filter_today_articles now articles days
  ↔ a ∈ articles ∧ (cutoff now days <= RawArticle.published a)%Z.
Proof.
  unfold filter_today_articles, cutoff. cbv zeta.
  rewrite !list_elem_of_In, List.filter_In, Z.leb_le. reflexivity.
Qed.

Lemma filter_window_sublist (now days : Z) (articles : list RawArticle.t) :
  filter_today_articles now articles days `sublist_of` articles.
Proof.
  unfold filter_today_articles. cbv zeta.
  induction articles as [|a l IH]; simpl; [constructor|].
  destruct (_ <=? _)%Z; [apply sublist_skip|apply sublist_cons]; exact IH.
Qed.

(** X11.  [filter_today_articles] keeps, in input order, exactly the articles
    published at or after [now - days] (the bound included), and a longer window
    keeps every article that a shorter one keeps, in the same order. *)
Theorem filter_window (now days : Z) (articles : list RawArticle.t) :
  filter_today_articles now articles days `sublist_of` articles
  ∧ (∀ a, a ∈ filter_today_articles now articles days
          ↔ a ∈ articles ∧ (now - days * day <= RawArticle.published a)%Z)
  ∧ (∀ longer, (days <= longer)%Z →
       filter_today_articles now articles days
         `sublist_of` filter_today_articles now articles longer).
Proof.
  split; [apply filter_window_sublist|].
  split; [intros a; apply filter_window_member|].
  intros longer Hle. unfold filter_today_articles. cbv zeta.
  induction articles as [|a l IH]; simpl; [constructor|].
  destruct (now - days * day <=? RawArticle.published a)%Z eqn:E1;
    destruct (now - longer * day <=? RawArticle.published a)%Z eqn:E2.
  - apply sublist_skip, IH.
  - apply Z.leb_le in E1. apply Z.leb_gt in E2. unfold day in *. lia.
  - apply sublist_cons, IH.
  - exact IH.
Qed.

Lemma recent_sublist (now days : Z) (articles : list RawArticle.t) :
  deduplicate (filter_today_articles now articles days) `sublist_of` articles.
Proof.
  unfold deduplicate. rewrite FetcherFacts.deduplicate_loop_first_seen. cbn [app].
  etransitivity; [apply FetcherFacts.first_seen_sublist|apply filter_window_sublist].
Qed.

Lemma recent_NoDup (now days : Z) (articles : list RawArticle.t) :
  NoDup (map RawArticle.url (deduplicate (filter_today_articles now articles days))).
Proof.
  unfold deduplicate. rewrite FetcherFacts.deduplicate_loop_first_seen. cbn [app].
  apply FetcherFacts.first_seen_NoDup.
Qed.

Lemma recent_in_window (now days : Z) (articles : list RawArticle.t) (a : RawArticle.t) :
  a ∈ deduplicate (filter_today_articles now articles days) →
  (now - days * day <= RawArticle.published a)%Z.
Proof.
  unfold deduplicate. rewrite FetcherFacts.deduplicate_loop_first_seen. cbn [app].
  intros Ha.
  pose proof (FetcherFacts.first_seen_sublist
                (filter_today_articles now articles days) ∅) as Hsub.
  apply (elem_of_sublist _ _ _ Ha) in Hsub.
  apply filter_window_member in Hsub as [_ Hw]. exact Hw.
Qed.

(** X12.  The filter followed by the deduplication, as [run] applies them, leaves
    a subsequence of the fetched articles without repeated urls in which every
    article is inside the window, and the url of every fetched article inside the
    window is still present. *)
Theorem recent_without_repeats (now days : Z) (articles : list RawArticle.t) :
  deduplicate (filter_today_articles now articles days) `sublist_of` articles
  ∧ NoDup (map RawArticle.url (deduplicate (filter_today_articles now articles days)))
  ∧ (∀ a, a ∈ deduplicate (filter_today_articles now articles days) →
          (now - days * day <= RawArticle.published a)%Z)
  ∧ (∀ a, a ∈ articles → (now - days * day <= RawArticle.published a)%Z →
          RawArticle.url a
          ∈ map RawArticle.url (deduplicate (filter_today_articles now articles days))).
Proof.
  split; [apply recent_sublist|]. split; [apply recent_NoDup|].
  split; [apply recent_in_window|].
  intros a Ha Hw.
  unfold deduplicate. rewrite FetcherFacts.deduplicate_loop_first_seen. cbn [app].
  apply FetcherFacts.first_seen_urls.
  split; [|apply not_elem_of_empty].
  apply list_elem_of_fmap. exists a. split; [reflexivity|].
  apply filter_window_member. split; assumption.
Qed.

(** The order of the two steps matters: the older of two articles of one url is
    dropped by the filter first, so the newer one survives. *)
Example filter_then_deduplicate :
  deduplicate (filter_today_articles (8 * day)
                 [RawArticle.mk "old" "u1" "Wired" 0 "" "" [];
                  RawArticle.mk "new" "u1" "Wired" (5 * day) "" "" []] 7)
  = [RawArticle.mk "new" "u1" "Wired" (5 * day) "" "" []]
  ∧ filter_today_articles (8 * day)
      (deduplicate [RawArticle.mk "old" "u1" "Wired" 0 "" "" [];
                    RawArticle.mk "new" "u1" "Wired" (5 * day) "" "" []]) 7
    = [].
Proof. split; vm_compute; reflexivity. Qed.

End FetcherProps.

(** ** More on the enricher: what every key point and every summary look like *)

Module EnricherProps.
Import Enricher.

(** The character occurs in the string. *)
Fixpoint has_char (c : ascii) (s : string) : bool :=
  match s with
  | EmptyString => false
  | String d s' => Ascii.eqb d c || has_char c s'
  end.

Lemma split_without_separator (sep : ascii) (s : string) :
  Forall (fun fragment => has_char sep fragment = false) (Py.split sep s).
Proof.
  induction s as [|c s IH]; simpl.
  - repeat constructor.
  - destruct (Ascii.eqb c sep) eqn:E.
    + constructor; [reflexivity|exact IH].
    + destruct (Py.split sep s) as [|w ws].
      * repeat constructor. simpl. rewrite E. reflexivity.
      * apply Forall_cons in IH as [Hw Hws].
        constructor; [|exact Hws]. simpl. rewrite E, Hw. reflexivity.
Qed.

Lemma lstrip_chars (c : ascii) (s : string) :
  has_char c s = false → has_char c (Py.lstrip s) = false.
Proof.
  induction s as [|d s IH]; simpl; [reflexivity|].
  intros H. apply orb_false_iff in H as [Hd Hs].
  destruct (Py.is_space d); [apply IH, Hs|].
  simpl. rewrite Hd, Hs. reflexivity.
Qed.

Lemma rstrip_chars (c : ascii) (s : string) :
  has_char c s = false → has_char c (Py.rstrip s) = false.
Proof.
  induction s as [|d s IH]; simpl; [reflexivity|].
  intros H. apply orb_false_iff in H as [Hd Hs]. specialize (IH Hs).
  destruct (Py.rstrip s) as [|e r].
  - destruct (Py.is_space d); [reflexivity|]. simpl. rewrite Hd. reflexivity.
  - cbn [has_char] in *. rewrite Hd, IH. reflexivity.
Qed.

(** The string is empty or begins with a character that is not whitespace. *)
Definition starts_clean (s : string) : Prop :=
  match s with
  | EmptyString => True
  | String c _ => Py.is_space c = false
  end.

Lemma lstrip_starts_clean (s : string) : starts_clean (Py.lstrip s).
Proof.
  induction s as [|c s IH]; simpl; [exact I|].
  destruct (Py.is_space c) eqn:E; [exact IH|exact E].
Qed.

Lemma rstrip_starts_clean (s : string) : starts_clean s → starts_clean (Py.rstrip s).
Proof.
  destruct s as [|c s]; simpl; [trivial|].
  intros Hc. destruct (Py.rstrip s); [rewrite Hc|]; exact Hc.
Qed.

Lemma lstrip_clean (s : string) : starts_clean s → Py.lstrip s = s.
Proof. destruct s as [|c s]; simpl; [reflexivity|]. intros ->. reflexivity. Qed.

Lemma rstrip_idempotent (s : string) : Py.rstrip (Py.rstrip s) = Py.rstrip s.
Proof.
  induction s as [|c s IH]; simpl; [reflexivity|].
  destruct (Py.rstrip s) as [|d r] eqn:E.
  - destruct (Py.is_space c) eqn:Ec; [reflexivity|]. simpl. rewrite Ec. reflexivity.
  - cbn [Py.rstrip]. fold Py.rstrip. cbn [Py.rstrip] in IH. rewrite IH. reflexivity.
Qed.

Lemma strip_idempotent (s : string) : Py.strip (Py.strip s) = Py.strip s.
Proof.
  unfold Py.strip.
  rewrite (lstrip_clean (Py.rstrip (Py.lstrip s)))
    by apply rstrip_starts_clean, lstrip_starts_clean.
  apply rstrip_idempotent.
Qed.

(** X13.  Every key point is longer than 20 characters, has no whitespace at either
    end (stripping it changes nothing) and contains no period. *)
Theorem key_points_quality (summary : string) :
  Forall (fun point =>
            (20 < String.length point)%nat
            ∧ Py.strip point = point
            ∧ has_char "." point = false)
         (_extract_key_points summary).
Proof.
  unfold _extract_key_points.
  destruct (negb (Py.truthy summary)); [constructor|]. cbv zeta.
  apply Forall_take, Forall_forall. intros point Hpoint.
  apply list_elem_of_fmap in Hpoint as [fragment [-> Hfragment]].
  apply list_elem_of_In, List.filter_In in Hfragment as [Hin Hkeep].
  apply andb_true_iff in Hkeep as [_ Hlong]. apply Nat.ltb_lt in Hlong.
  split; [exact Hlong|]. split; [apply strip_idempotent|].
  unfold Py.strip. apply rstrip_chars, lstrip_chars.
  pose proof (split_without_separator "." (Py.replace "..." "." summary)) as Hsplit.
  rewrite Forall_forall in Hsplit. apply Hsplit, list_elem_of_In, Hin.
Qed.

Lemma categorize_loop_label (t : string) (table : list (string * list string)) :
  categorize_loop t table ∈ "Tech" :: map fst table.
Proof.
  induction table as [|[c k] table IH]; simpl.
  - left.
  - destruct (keyword_hit t k).
    + right. left.
    + apply elem_of_cons in IH as [->|IH]; [left|right; right; exact IH].
Qed.

Lemma importance_from_five (article : RawArticle.t) :
  (5 <= _calculate_importance article <= 10)%Q.
Proof.
  unfold _calculate_importance. cbv zeta.
  rewrite PyFacts.min_is_Qmin, EnricherFacts.fold_boost.
  set (hits := length _).
  assert (Hhits : (0 <= inject_Z (Z.of_nat hits))%Q).
  { change 0%Q with (inject_Z 0). rewrite <- Zle_Qle. lia. }
  destruct (Q.min_spec 10.0 (5.0 + 0.5 * inject_Z (Z.of_nat hits))) as [[? ->]|[? ->]];
    lra.
Qed.

(** X14.  The summary that [run] builds of a raw article copies its title, url and
    source, has an importance between 5 and 10, one of the eight category labels,
    at most 3 key points and a summary text that is not empty. *)
Theorem summarize_ranges (datetime_str : Z → string) (article : RawArticle.t) :
  ArticleSummary.title (Agent.summarize datetime_str article) = RawArticle.title article
  ∧ ArticleSummary.url (Agent.summarize datetime_str article) = RawArticle.url article
  ∧ ArticleSummary.source (Agent.summarize datetime_str article)
    = RawArticle.source article
  ∧ (5 <= ArticleSummary.importance_score (Agent.summarize datetime_str article) <= 10)%Q
  ∧ ArticleSummary.category (Agent.summarize datetime_str article)
    ∈ ["Tech"; "AI/ML"; "Startups"; "Gadgets"; "Gaming"; "Space"; "Security"; "Software"]
  ∧ (length (ArticleSummary.key_points (Agent.summarize datetime_str article)) <= 3)%nat
  ∧ ArticleSummary.summary (Agent.summarize datetime_str article) ≠ "".
Proof.
  unfold Agent.summarize. cbn.
  repeat (split; [reflexivity|]).
  split; [apply importance_from_five|].
  split; [apply (categorize_loop_label _ categories)|].
  split.
  - unfold _extract_key_points. destruct (negb _); [simpl; lia|]. cbv zeta.
    rewrite length_take. lia.
  - destruct (RawArticle.summary article); simpl; discriminate.
Qed.

End EnricherProps.

(** ** More on the orchestrator: what every [DailySummary] satisfies *)

Module AgentProps.

Lemma top_articles_loop_sublist (top_n : Z) (summaries : list ArticleSummary.t) :
  Agent.top_articles_loop top_n summaries ∅ [] `sublist_of` summaries.
Proof.
  rewrite (SelectionFacts.top_articles_loop_diversity top_n summaries ∅ ∅ [])
    by reflexivity.
  destruct (SelectionFacts.diversity_loop_capped top_n 2 summaries ∅ []
              SelectionProps.counts_agree_empty)
    as [[admitted [Hres Hsub]] _].
  { intros src. unfold SelectionFacts.count_source. simpl. lia. }
  rewrite Hres. exact Hsub.
Qed.

Section Run.

Variable now : Z.
Variable today : string.
Variable datetime_str : Z → string.

(** The raw articles that [run] enriches. *)
Definition to_enrich (raw_articles : list RawArticle.t) : list RawArticle.t :=
  take 100 (Fetcher.deduplicate (Fetcher.filter_today_articles now raw_articles 7)).

Lemma run_articles (top_n : Z) (raw_articles : list RawArticle.t) :
  DailySummary.articles (fst (Agent.run now today datetime_str top_n raw_articles))
  = Agent.top_articles_loop top_n
      (PySort.sorted_reverse ArticleSummary.importance_score
         (map (Agent.summarize datetime_str) (to_enrich raw_articles))) ∅ [].
Proof.
  unfold Agent.run, to_enrich. cbv zeta.
  destruct (Fetcher.deduplicate (Fetcher.filter_today_articles now raw_articles 7));
    reflexivity.
Qed.

Lemma to_enrich_urls (raw_articles : list RawArticle.t) :
  NoDup (map RawArticle.url (to_enrich raw_articles))
  ∧ to_enrich raw_articles `sublist_of` raw_articles.
Proof.
  unfold to_enrich.
  pose proof (FetcherProps.recent_sublist now 7 raw_articles) as Hsub.
  pose proof (FetcherProps.recent_NoDup now 7 raw_articles) as Hnd.
  split.
  - eapply sublist_NoDup; [exact Hnd|].
    apply fmap_sublist, sublist_take.
  - etransitivity; [apply sublist_take|exact Hsub].
Qed.

(** X15.  Whatever was fetched and whatever [top_n] is, the [DailySummary] of [run]
    counts all fetched articles in [total_fetched] and at most 100 in
    [total_parsed]; every article it lists is the summary of a fetched article of
    the last 7 days; no two listed articles have the same url; [sources_used] lists
    the sources of the listed articles, each once. *)
Theorem run_summary_invariants (top_n : Z) (raw_articles : list RawArticle.t) :
  let result := fst (Agent.run now today datetime_str top_n raw_articles) in
  DailySummary.total_fetched result = length raw_articles
  ∧ DailySummary.total_parsed result = length (to_enrich raw_articles)
  ∧ (DailySummary.total_parsed result <= 100)%nat
  ∧ (∀ s, s ∈ DailySummary.articles result →
          ∃ a, a ∈ raw_articles
               ∧ (now - 7 * Fetcher.day <= RawArticle.published a)%Z
               ∧ s = Agent.summarize datetime_str a)
  ∧ NoDup (map ArticleSummary.url (DailySummary.articles result))
  ∧ NoDup (DailySummary.sources_used result)
  ∧ (∀ src, src ∈ DailySummary.sources_used result
            ↔ src ∈ map ArticleSummary.source (DailySummary.articles result)).
Proof.
  intros result.
  pose proof (run_articles top_n raw_articles) as Harticles. fold result in Harticles.
  set (sorted := PySort.sorted_reverse ArticleSummary.importance_score
                   (map (Agent.summarize datetime_str) (to_enrich raw_articles))) in *.
  pose proof (PySortFacts.sorted_reverse_perm ArticleSummary.importance_score
                (map (Agent.summarize datetime_str) (to_enrich raw_articles))) as Hperm.
  fold sorted in Hperm.
  pose proof (top_articles_loop_sublist top_n sorted) as Hsub.
  rewrite <- Harticles in Hsub.
  destruct (to_enrich_urls raw_articles) as [Hnd Hraw].
  assert (Hfields :
    DailySummary.total_fetched result = length raw_articles
    ∧ DailySummary.total_parsed result = length sorted
    ∧ DailySummary.sources_used result
      = elements (list_to_set (map ArticleSummary.source (DailySummary.articles result))
                  : gset string)).
  { unfold result, sorted, Agent.run, to_enrich. cbv zeta.
    destruct (Fetcher.deduplicate (Fetcher.filter_today_articles now raw_articles 7));
      repeat split; reflexivity. }
  destruct Hfields as [Hfetched [Hparsed Hsources]].
  rewrite (Permutation_length Hperm), length_map in Hparsed.
  split; [exact Hfetched|]. split; [exact Hparsed|]. split.
  { rewrite Hparsed. unfold to_enrich. rewrite length_take. lia. }
  split.
  { intros s Hs. apply (elem_of_sublist _ _ _ Hs) in Hsub.
    rewrite Hperm in Hsub. apply list_elem_of_fmap in Hsub as [a [-> Ha]].
    exists a. split; [eapply elem_of_sublist; [exact Ha|exact Hraw]|].
    split; [|reflexivity].
    unfold to_enrich in Ha. apply elem_of_take in Ha as [i [Ha _]].
    apply list_elem_of_lookup_2 in Ha.
    apply (FetcherProps.recent_in_window now 7 raw_articles a Ha). }
  split.
  { eapply sublist_NoDup; [|apply fmap_sublist; exact Hsub].
    rewrite Hperm. rewrite <- list_fmap_compose.
    exact Hnd. }
  rewrite Hsources. split; [apply NoDup_elements|].
  intros src. rewrite elem_of_elements, elem_of_list_to_set. reflexivity.
Qed.

End Run.

Example run_two_articles :
  DailySummary.sources_used
    (fst (Agent.run 0 "January 01, 1970" (fun _ => "1970-01-01 00:00:00") 5
            [SelectionFacts.raw "Apple announces new AI chip" "u1" "The Verge";
             SelectionFacts.raw "Happy days" "u2" "The Verge";
             SelectionFacts.raw "Apple announces new AI chip" "u1" "Wired"]))
  = ["The Verge"].
Proof. vm_compute. reflexivity. Qed.

End AgentProps.

(** ** The fetcher: entries and feeds *)

Module FeedEntryProps.
Import FeedEntry.

Lemma substring_length (n : nat) (s : string) :
  (String.length (String.substring 0 n s) <= n)%nat.
Proof.
  revert s. induction n as [|n IH]; intros s.
  - destruct s; simpl; lia.
  - destruct s as [|c s]; simpl; [lia|]. specialize (IH s). lia.
Qed.

Lemma truthy_not_empty (s : string) : Py.truthy s = true ↔ s ≠ "".
Proof. destruct s; simpl; split; congruence. Qed.

Lemma elem_of_concat {A : Type} (x : A) (ls : list (list A)) :
  x ∈ concat ls → ∃ l, x ∈ l ∧ l ∈ ls.
Proof.
  induction ls as [|l ls IH]; simpl; intros Hx; [inversion Hx|].
  apply elem_of_app in Hx as [Hx|Hx].
  - exists l. split; [exact Hx|left].
  - destruct (IH Hx) as [l' [Hl' Hin]]. exists l'. split; [exact Hl'|right; exact Hin].
Qed.

Section Entries.

Variable struct_time : Type.
Variable to_datetime : struct_time → option Z.

Local Abbreviation entry := (FeedEntry.entry struct_time).
Local Abbreviation parse := (_parse_entry struct_time to_datetime).

(** The fields of an article that [_parse_entry] gives. *)
Lemma parse_entry_some (now : Z) (e : entry) (feed : FeedSource.t) (a : RawArticle.t) :
  parse now e feed = Some a →
  RawArticle.title a = Py.strip (default "" (title _ e))
  ∧ RawArticle.title a ≠ ""
  ∧ RawArticle.url a = default "" (link _ e)
  ∧ RawArticle.url a ≠ ""
  ∧ RawArticle.source a = FeedSource.name feed
  ∧ (String.length (RawArticle.summary a) <= 500)%nat
  ∧ RawArticle.published a
    = default now
        (first_date struct_time to_datetime
           [published_parsed _ e; updated_parsed _ e; created_parsed _ e]).
Proof.
  unfold _parse_entry. cbv zeta.
  destruct (Py.truthy (Py.strip (default "" (title _ e)))) eqn:Ht; [|discriminate].
  destruct (Py.truthy (default "" (link _ e))) eqn:Hl; [|discriminate].
  cbn [negb]. apply truthy_not_empty in Ht, Hl.
  intros Ha. injection Ha as <-. cbn.
  repeat (split; [first [reflexivity|assumption]|]).
  split; [|reflexivity].
  destruct (Py.truthy _); [apply substring_length|simpl; lia].
Qed.



(** What holds of every article that the fetcher produces from the given feeds. *)
Definition well_formed (feeds : list (FeedSource.t * response struct_time))
    (a : RawArticle.t) : Prop :=
  RawArticle.title a ≠ ""
  ∧ RawArticle.url a ≠ ""
  ∧ (String.length (RawArticle.summary a) <= 500)%nat
  ∧ ∃ feed entries,
      (feed, Response _ 200 entries) ∈ feeds
      ∧ RawArticle.source a = FeedSource.name feed.

(** X17.  Every article that [fetch_all_feeds] returns has a title and a url that
    are not empty and a summary of at most 500 characters, and carries the name of
    a feed that answered with status 200. *)
Theorem fetched_articles_well_formed (now : Z)
    (feeds : list (FeedSource.t * response struct_time)) :
  Forall (well_formed feeds) (fetch_all_feeds struct_time to_datetime now feeds).
Proof.
  apply Forall_forall. intros a Ha. unfold fetch_all_feeds in Ha.
  apply elem_of_concat in Ha as [articles [Ha Harticles]].
  apply list_elem_of_fmap in Harticles as [[feed r] [-> Hfeed]].
  cbn [fst snd] in Ha. destruct r as [|status entries]; [inversion Ha|].
  cbn [fetch_feed] in Ha. destruct (status =? 200)%Z eqn:Hs; [|inversion Ha].
  apply Z.eqb_eq in Hs. subst status.
  apply list_elem_of_omap in Ha as [e [_ He]].
  destruct (parse_entry_some now e feed a He)
    as [_ [Ht [_ [Hu [Hsrc [Hlen _]]]]]].
  repeat (split; [assumption|]).
  exists feed, entries. split; assumption.
Qed.

(** X18.  A feed whose request failed, or was answered with a status other than
    200, contributes nothing: the result is the one obtained without that feed,
    and the articles of the other feeds keep their order. *)
Theorem failing_feed_is_ignored (now : Z)
    (before after : list (FeedSource.t * response struct_time))
    (feed : FeedSource.t) (r : response struct_time) :
  (r = Failed _ ∨ ∃ status entries, r = Response _ status entries ∧ status ≠ 200%Z) →
  fetch_all_feeds struct_time to_datetime now (before ++ (feed, r) :: after)
  = fetch_all_feeds struct_time to_datetime now (before ++ after).
Proof.
  intros Hr. unfold fetch_all_feeds.
  rewrite !map_app, !concat_app. cbn [map concat fst snd].
  assert (Hnone : fetch_feed struct_time to_datetime now feed r = []).
  { destruct Hr as [->|[status [entries [-> Hs]]]]; [reflexivity|].
    cbn [fetch_feed]. apply Z.eqb_neq in Hs. rewrite Hs. reflexivity. }
  rewrite Hnone. reflexivity.
Qed.

End Entries.

Definition sample_feed : FeedSource.t :=
  FeedSource.mk "TechCrunch" "https://techcrunch.com/feed/" "Startups" 5.

Definition sample_entry : entry Z :=
  mk_entry Z (Some "  Apple announces new AI chip ") (Some "https://x/a")
    None (Some 7%Z) None None (Some "<p>A   new <b>chip</b></p>") None None.


Lemma failing_feed_is_ignored_witness :
  fetch_all_feeds Z Some 99
    ([(sample_feed, Response Z 200 [sample_entry])]
     ++ (sample_feed, Response Z 404 [sample_entry]) :: [(sample_feed, Failed Z)])
  = fetch_all_feeds Z Some 99
      ([(sample_feed, Response Z 200 [sample_entry])] ++ [(sample_feed, Failed Z)]).
Proof.
  apply (failing_feed_is_ignored Z Some 99).
  right. exists 404%Z, [sample_entry]. split; [reflexivity|lia].
Defined.

Example parse_sample_entry :
  _parse_entry Z Some 99 sample_entry sample_feed
  = Some (RawArticle.mk "Apple announces new AI chip" "https://x/a" "TechCrunch" 7
            "A new chip" "" []).
Proof. reflexivity. Qed.

(** A title that is a single no-break space (U+00A0) strips to the empty string. *)
Example parse_no_break_space_title :
  _parse_entry Z Some 99
    (mk_entry Z (Some (String "160" "")) (Some "https://x/a")
       None None None None None None None)
    sample_feed = None.
Proof. reflexivity. Qed.

End FeedEntryProps.

(** ** Cleaning: tags, whitespace, truncation *)

Module CleaningProps.
Import Regex.

Local Abbreviation has_char := EnricherProps.has_char.
Local Abbreviation starts_clean := EnricherProps.starts_clean.

(** *** Whitespace *)

(** Every whitespace character of the string is a space, and what follows it is
    empty or begins with a character that is not whitespace. *)
Fixpoint single_spaced (s : string) : Prop :=
  match s with
  | EmptyString => True
  | String c s' =>
      (Py.is_space c = true → c = " "%char ∧ starts_clean s') ∧ single_spaced s'
  end.

Lemma collapse_single_spaced (s : string) :
  ∀ in_run : bool,
    single_spaced (collapse_spaces_from in_run s)
    ∧ (in_run = true → starts_clean (collapse_spaces_from in_run s)).
Proof.
  induction s as [|c s IH]; intros b; simpl.
  - split; [exact I|intros _; exact I].
  - destruct (Py.is_space c) eqn:Ec.
    + destruct b.
      * apply IH.
      * split; [|discriminate]. simpl. split; [|apply IH].
        intros _. split; [reflexivity|]. apply IH. reflexivity.
    + split; [|intros _; simpl; exact Ec].
      simpl. split; [|apply IH]. rewrite Ec. discriminate.
Qed.

Lemma lstrip_single_spaced (s : string) :
  single_spaced s → single_spaced (Py.lstrip s).
Proof.
  induction s as [|c s IH]; cbn [single_spaced Py.lstrip]; [trivial|].
  intros [Hc Hs]. destruct (Py.is_space c) eqn:Ec; [apply IH, Hs|].
  cbn [single_spaced]. split; [rewrite Ec; discriminate|exact Hs].
Qed.

Lemma rstrip_single_spaced (s : string) :
  single_spaced s → single_spaced (Py.rstrip s).
Proof.
  induction s as [|c s IH]; simpl; [trivial|].
  intros [Hc Hs]. specialize (IH Hs).
  pose proof (EnricherProps.rstrip_starts_clean s) as Hstart.
  destruct (Py.rstrip s) as [|d r] eqn:E.
  - destruct (Py.is_space c) eqn:Ec; [exact I|].
    simpl. split; [rewrite Ec; discriminate|exact I].
  - cbn [single_spaced]. split; [|exact IH].
    intros Hspace. destruct (Hc Hspace) as [-> Hclean].
    split; [reflexivity|apply Hstart, Hclean].
Qed.

Lemma collapse_fixed (s : string) :
  ∀ in_run : bool,
    single_spaced s → (in_run = true → starts_clean s) →
    collapse_spaces_from in_run s = s.
Proof.
  induction s as [|c s IH]; intros b Hs Hb; simpl; [reflexivity|].
  destruct Hs as [Hc Hs]. destruct (Py.is_space c) eqn:Ec.
  - destruct (Hc eq_refl) as [-> Hclean].
    destruct b; [specialize (Hb eq_refl); simpl in Hb; congruence|].
    f_equal. apply IH; [exact Hs|intros _; exact Hclean].
  - f_equal. apply IH; [exact Hs|discriminate].
Qed.

Lemma strip_single_spaced (s : string) : single_spaced s → single_spaced (Py.strip s).
Proof.
  intros Hs. unfold Py.strip. apply rstrip_single_spaced, lstrip_single_spaced, Hs.
Qed.

Lemma normal_form (s : string) :
  Py.strip (Py.strip (collapse_spaces s)) = Py.strip (collapse_spaces s)
  ∧ single_spaced (Py.strip (collapse_spaces s))
  ∧ collapse_spaces (Py.strip (collapse_spaces s)) = Py.strip (collapse_spaces s).
Proof.
  assert (Hss : single_spaced (Py.strip (collapse_spaces s))).
  { apply strip_single_spaced. apply (collapse_single_spaced s false). }
  split; [apply EnricherProps.strip_idempotent|]. split; [exact Hss|].
  apply collapse_fixed; [exact Hss|discriminate].
Qed.

(** X19.  [normalize_whitespace] returns a text that has no whitespace at either
    end and in which every whitespace character is a single space between two
    other characters; normalizing it again changes nothing. *)
Theorem normalize_whitespace_normal_form (text : string) :
  Py.strip (TextCleaner.normalize_whitespace text) = TextCleaner.normalize_whitespace text
  ∧ single_spaced (TextCleaner.normalize_whitespace text)
  ∧ TextCleaner.normalize_whitespace (TextCleaner.normalize_whitespace text)
    = TextCleaner.normalize_whitespace text.
Proof.
  unfold TextCleaner.normalize_whitespace.
  destruct text as [|c text]; [repeat split; reflexivity|].
  cbn [Py.truthy negb].
  destruct (normal_form (String c text)) as [Hstrip [Hss Hcollapse]].
  split; [exact Hstrip|]. split; [exact Hss|].
  destruct (Py.truthy (Py.strip (collapse_spaces (String c text)))) eqn:E.
  - cbn [negb]. rewrite Hcollapse. exact Hstrip.
  - cbn [negb]. clear Hstrip Hss Hcollapse.
    destruct (Py.strip (collapse_spaces (String c text))); [reflexivity|discriminate].
Qed.

(** *** Tags *)

(** No [<] of the string begins a match of [<[^>]+>]. *)
Fixpoint no_tag (s : string) : Prop :=
  match s with
  | EmptyString => True
  | String c s' => (c = "<"%char → tag_end s' = None) ∧ no_tag s'
  end.

Lemma after_gt_none (s : string) : after_gt s = None ↔ has_char ">" s = false.
Proof.
  induction s as [|c s IH]; simpl; [tauto|].
  destruct (Ascii.eqb c ">"); simpl; [split; discriminate|exact IH].
Qed.

(** A tag cannot start before [s]: [s] begins with [>] or holds no [>] at all. *)
Lemma tag_end_none (s : string) :
  tag_end s = None
  ↔ (∃ t, s = String ">" t) ∨ has_char ">" s = false.
Proof.
  destruct s as [|c s]; simpl.
  - split; [right; reflexivity|reflexivity].
  - destruct (Ascii.eqb c ">") eqn:E; simpl.
    + apply Ascii.eqb_eq in E. subst c.
      split; [intros _; left; exists s; reflexivity|reflexivity].
    + rewrite after_gt_none. split; [tauto|].
      intros [[t Ht]|H]; [|exact H].
      injection Ht as -> _. rewrite Ascii.eqb_refl in E. discriminate.
Qed.

Lemma remove_tags_chars (c : ascii) (s : string) :
  ∀ inside, has_char c s = false → has_char c (remove_tags_from inside s) = false.
Proof.
  induction s as [|d s IH]; intros b; simpl; [reflexivity|].
  intros H. apply orb_false_iff in H as [Hd Hs].
  destruct b.
  - destruct (Ascii.eqb d ">"); apply IH, Hs.
  - destruct (Ascii.eqb d "<" && bool_decide (is_Some (tag_end s))); [apply IH, Hs|].
    simpl. rewrite Hd. apply IH, Hs.
Qed.

Lemma collapse_chars (c : ascii) (s : string) :
  Py.is_space c = false →
  ∀ in_run, has_char c s = false → has_char c (collapse_spaces_from in_run s) = false.
Proof.
  intros Hc. induction s as [|d s IH]; intros b;
    cbn [EnricherProps.has_char collapse_spaces_from]; [reflexivity|].
  intros H. apply orb_false_iff in H as [Hd Hs].
  destruct (Py.is_space d) eqn:Ed.
  - destruct b; [apply IH, Hs|].
    cbn [EnricherProps.has_char]. rewrite (IH true Hs), orb_false_r.
    apply Ascii.eqb_neq. intros <-. vm_compute in Hc. discriminate.
  - cbn [EnricherProps.has_char]. rewrite Hd. apply IH, Hs.
Qed.

Lemma remove_tags_no_tag (s : string) : ∀ inside, no_tag (remove_tags_from inside s).
Proof.
  induction s as [|c s IH]; intros b; simpl; [exact I|].
  destruct b.
  - destruct (Ascii.eqb c ">"); apply IH.
  - destruct (Ascii.eqb c "<" && bool_decide (is_Some (tag_end s))) eqn:E; [apply IH|].
    simpl. split; [|apply IH].
    intros ->. rewrite Ascii.eqb_refl in E. cbn [andb] in E.
    apply bool_decide_eq_false in E.
    assert (Hnone : tag_end s = None).
    { destruct (tag_end s); [exfalso; apply E; eexists; reflexivity|reflexivity]. }
    apply tag_end_none in Hnone. apply tag_end_none.
    destruct Hnone as [[t ->]|Hnone].
    + left. simpl. eexists. reflexivity.
    + right. apply remove_tags_chars, Hnone.
Qed.

Lemma no_tag_fixed (s : string) : no_tag s → remove_tags_from false s = s.
Proof.
  induction s as [|c s IH]; simpl; [reflexivity|].
  intros [Hc Hs]. destruct (Ascii.eqb c "<") eqn:E.
  - apply Ascii.eqb_eq in E. rewrite (Hc E).
    change (bool_decide (is_Some (@None string))) with false.
    cbn [andb]. f_equal. apply IH, Hs.
  - cbn [andb]. f_equal. apply IH, Hs.
Qed.

Lemma collapse_no_tag (s : string) :
  ∀ in_run, no_tag s → no_tag (collapse_spaces_from in_run s).
Proof.
  induction s as [|c s IH]; intros b; simpl; [trivial|].
  intros [Hc Hs]. destruct (Py.is_space c) eqn:Ec.
  - destruct b; [apply IH, Hs|]. simpl. split; [discriminate|apply IH, Hs].
  - simpl. split; [|apply IH, Hs].
    intros Hlt. apply tag_end_none. destruct (proj1 (tag_end_none s) (Hc Hlt)) as [[t ->]|H].
    + left. simpl. eexists. reflexivity.
    + right. apply collapse_chars; [reflexivity|exact H].
Qed.

Lemma lstrip_no_tag (s : string) : no_tag s → no_tag (Py.lstrip s).
Proof.
  induction s as [|c s IH]; simpl; [trivial|].
  intros [Hc Hs]. destruct (Py.is_space c); [apply IH, Hs|].
  simpl. split; assumption.
Qed.

Lemma rstrip_no_tag (s : string) : no_tag s → no_tag (Py.rstrip s).
Proof.
  induction s as [|c s IH]; simpl; [trivial|].
  intros [Hc Hs]. specialize (IH Hs).
  destruct (Py.rstrip s) as [|d r] eqn:E.
  - destruct (Py.is_space c); [exact I|]. simpl. split; [reflexivity|exact I].
  - cbn [no_tag]. split; [|exact IH].
    intros Hlt. apply tag_end_none.
    destruct (proj1 (tag_end_none s) (Hc Hlt)) as [[t ->]|H].
    + left. simpl in E. destruct (Py.rstrip t); injection E as <- <-; eexists; reflexivity.
    + right. rewrite <- E. apply EnricherProps.rstrip_chars, H.
Qed.

Lemma clean_html_no_tag (text : string) : no_tag (FeedEntry._clean_html text).
Proof.
  unfold FeedEntry._clean_html, Py.strip. cbv zeta.
  apply rstrip_no_tag, lstrip_no_tag, collapse_no_tag, remove_tags_no_tag.
Qed.

(** X20.  The text that [_clean_html] returns holds no tag, has no whitespace at
    either end, and every whitespace character in it is a single space between two
    other characters; cleaning it again changes nothing. *)
Theorem clean_html_normal_form (text : string) :
  remove_tags (FeedEntry._clean_html text) = FeedEntry._clean_html text
  ∧ Py.strip (FeedEntry._clean_html text) = FeedEntry._clean_html text
  ∧ single_spaced (FeedEntry._clean_html text)
  ∧ FeedEntry._clean_html (FeedEntry._clean_html text) = FeedEntry._clean_html text.
Proof.
  pose proof (no_tag_fixed _ (clean_html_no_tag text)) as Htags.
  fold (remove_tags (FeedEntry._clean_html text)) in Htags.
  destruct (normal_form (remove_tags text)) as [Hstrip [Hss Hcollapse]].
  change (Py.strip (collapse_spaces (remove_tags text)))
    with (FeedEntry._clean_html text) in *.
  split; [exact Htags|]. split; [exact Hstrip|]. split; [exact Hss|].
  unfold FeedEntry._clean_html at 1. cbv zeta.
  rewrite Htags, Hcollapse. exact Hstrip.
Qed.

Example clean_html_sample :
  FeedEntry._clean_html "<p>OpenAI   ships <b>a new</b> model</p>
  <a href='x'>Read more</a> " = "OpenAI ships a new model Read more".
Proof. reflexivity. Qed.

(** A no-break space (U+00A0) and a next-line character (U+0085) are whitespace
    for [\s+] and for [strip]. *)
Example normalize_no_break_space :
  TextCleaner.normalize_whitespace
    (String "160" ("a" +:+ String "160" (String "133" (" b" +:+ String "133" ""))))
  = "a b".
Proof. reflexivity. Qed.


(** *** Truncation *)

Lemma append_cons (c : ascii) (a b : string) : String c a +:+ b = String c (a +:+ b).
Proof. reflexivity. Qed.

Lemma append_empty (a : string) : a +:+ "" = a.
Proof. induction a as [|c a IH]; [reflexivity|]. rewrite append_cons, IH. reflexivity. Qed.

Lemma append_length (a b : string) :
  String.length (a +:+ b) = (String.length a + String.length b)%nat.
Proof.
  induction a as [|c a IH]; [reflexivity|].
  rewrite append_cons. cbn [String.length]. rewrite IH. reflexivity.
Qed.

Lemma append_assoc (a b c : string) : (a +:+ b) +:+ c = a +:+ (b +:+ c).
Proof.
  induction a as [|x a IH]; [reflexivity|].
  rewrite !append_cons, IH. reflexivity.
Qed.

Lemma before_last_space_prefix (s : string) :
  ∃ rest, s = TextCleaner.before_last_space s +:+ rest.
Proof.
  induction s as [|c s [rest IH]]; [exists ""; reflexivity|].
  cbn [TextCleaner.before_last_space].
  destruct (TextCleaner.has_char " " s).
  - exists rest. rewrite append_cons, <- IH. reflexivity.
  - destruct (Ascii.eqb c " ").
    + exists (String c s). reflexivity.
    + exists "". rewrite append_empty. reflexivity.
Qed.

Lemma substring_prefix (n : nat) (s : string) :
  ∃ rest, s = String.substring 0 n s +:+ rest.
Proof.
  revert s. induction n as [|n IH]; intros s.
  - exists s. destruct s; reflexivity.
  - destruct s as [|c s]; [exists ""; reflexivity|].
    destruct (IH s) as [rest Hrest]. exists rest.
    cbn [String.substring]. rewrite append_cons, <- Hrest. reflexivity.
Qed.

Lemma slice_to_prefix (k : Z) (s : string) :
  ∃ rest, s = TextCleaner.slice_to k s +:+ rest.
Proof. unfold TextCleaner.slice_to. destruct (k <? 0)%Z; apply substring_prefix. Qed.

Lemma slice_to_length (k : Z) (s : string) :
  (0 <= k)%Z → (Z.of_nat (String.length (TextCleaner.slice_to k s)) <= k)%Z.
Proof.
  intros Hk. unfold TextCleaner.slice_to.
  apply Z.ltb_ge in Hk as Hk'. rewrite Hk'.
  pose proof (FeedEntryProps.substring_length (Z.to_nat k) s). lia.
Qed.

(** X21.  [truncate] returns a text that is empty or no longer than [max_length]
    as it is.  A longer text becomes a prefix of the text followed by the suffix,
    and the result is no longer than [max_length] when the suffix is not. *)
Theorem truncate_result (text : string) (max_length : Z) (suffix : string) :
  (text = "" ∨ (Z.of_nat (String.length text) <= max_length)%Z →
   TextCleaner.truncate text max_length suffix = text)
  ∧ (text ≠ "" → (max_length < Z.of_nat (String.length text))%Z →
     ∃ head rest,
       TextCleaner.truncate text max_length suffix = head +:+ suffix
       ∧ text = head +:+ rest
       ∧ ((Z.of_nat (String.length suffix) <= max_length)%Z →
          (Z.of_nat (String.length (TextCleaner.truncate text max_length suffix))
           <= max_length)%Z)).
Proof.
  unfold TextCleaner.truncate. split.
  - intros [->|Hshort]; [reflexivity|].
    apply Z.leb_le in Hshort. rewrite Hshort, orb_true_r. reflexivity.
  - intros Hne Hlong.
    destruct text as [|c text]; [congruence|]. cbn [Py.truthy negb orb].
    apply Z.leb_gt in Hlong as Hguard. rewrite Hguard.
    set (k := (max_length - Z.of_nat (String.length suffix))%Z).
    set (slice := TextCleaner.slice_to k (String c text)).
    destruct (before_last_space_prefix slice) as [r1 Hr1].
    destruct (slice_to_prefix k (String c text)) as [r2 Hr2]. fold slice in Hr2.
    exists (TextCleaner.before_last_space slice), (r1 +:+ r2).
    split; [reflexivity|]. split.
    + rewrite <- append_assoc, <- Hr1. exact Hr2.
    + intros Hsuffix. rewrite append_length.
      assert (Hk : (0 <= k)%Z) by (unfold k; lia).
      pose proof (slice_to_length k (String c text) Hk) as Hslice. fold slice in Hslice.
      assert (Hhead : (String.length (TextCleaner.before_last_space slice)
                       <= String.length slice)%nat).
      { rewrite Hr1 at 2. rewrite append_length. lia. }
      unfold k in *. lia.
Qed.

Lemma truncate_result_witness :
  TextCleaner.truncate "short text" 500 "..." = "short text".
Proof.
  apply (proj1 (truncate_result "short text" 500 "...")).
  right. simpl. lia.
Defined.

Example truncate_at_a_space :
  TextCleaner.truncate "hello wonderful world" 12 "..." = "hello...".
Proof. reflexivity. Qed.

(** With a suffix longer than [max_length] the slice bound is negative and counts
    from the end of the text: the result is longer than [max_length]. *)
Example truncate_with_a_long_suffix :
  TextCleaner.truncate "hello wonderful world" 2 "..." = "hello wonderful...".
Proof. reflexivity. Qed.

End CleaningProps.

(** ** Edge cases and compositions *)

Module PipelineProps.

Section Clock.

Variable now : Z.
Variable strptime : string → string → option Z.

(** X22.  [get_top_n] returns the empty list, without raising, when [n <= 0] and
    when the input is empty. *)
Theorem get_top_n_nothing_to_select (self : Ranker.ArticleRanker)
    (summaries : list ArticleSummary.t) (n : Z) :
  (n <= 0)%Z ∨ summaries = [] →
  Ranker.get_top_n now strptime self summaries n = Ranker.Returns [].
Proof.
  intros H. unfold Ranker.get_top_n, Ranker.get_top_n_by.
  destruct (Z.of_nat (length summaries) <=? n)%Z eqn:Hguard.
  - apply Z.leb_le in Hguard. destruct H as [Hn| ->]; [|reflexivity].
    destruct summaries; [reflexivity|simpl in Hguard; lia].
  - destruct summaries as [|x l].
    + cbn [length Ranker.select_loop Py.nonempty]. rewrite andb_false_r. reflexivity.
    + destruct H as [Hn|H]; [|discriminate].
      assert (Hlt : (Z.of_nat (length (@nil ArticleSummary.t)) <? n)%Z = false)
        by (apply Z.ltb_ge; simpl; lia).
      destruct (length (x :: l)); cbn [Ranker.select_loop]; rewrite Hlt; reflexivity.
Qed.

End Clock.

Lemma get_top_n_nothing_to_select_witness :
  Ranker.get_top_n 0 RankerFacts.no_parse Ranker.default_ranker
    [RankerFacts.article_a; RankerFacts.article_b] (-1) = Ranker.Returns [].
Proof.
  apply (get_top_n_nothing_to_select 0 RankerFacts.no_parse).
  left. lia.
Defined.

(** X23.  Deduplicating twice is deduplicating once. *)
Theorem deduplicate_idempotent (articles : list RawArticle.t) :
  Fetcher.deduplicate (Fetcher.deduplicate articles) = Fetcher.deduplicate articles.
Proof.
  unfold Fetcher.deduplicate.
  rewrite !FetcherFacts.deduplicate_loop_first_seen. cbn [app].
  apply FetcherFacts.first_seen_unchanged.
  - apply FetcherFacts.first_seen_NoDup.
  - intros u _. apply not_elem_of_empty.
Qed.

Section Run.

Variable now : Z.
Variable today : string.
Variable datetime_str : Z → string.

(** X24.  The articles that [run] selects are those that
    [ensure_source_diversity] selects, with [n = top_n] and [max_per_source = 2],
    from the summaries that [run] built: the loop written out in [run] and the
    method of the ranker agree. *)
Theorem run_selects_as_ranker (top_n : Z) (raw_articles : list RawArticle.t) :
  DailySummary.articles (fst (Agent.run now today datetime_str top_n raw_articles))
  = Ranker.ensure_source_diversity
      (map (Agent.summarize datetime_str) (AgentProps.to_enrich now raw_articles))
      top_n 2.
Proof.
  rewrite AgentProps.run_articles. unfold Ranker.ensure_source_diversity. cbv zeta.
  apply SelectionFacts.top_articles_loop_diversity. reflexivity.
Qed.

End Run.

End PipelineProps.
